(** * Verification of the image post-processing core of make_illust

    Shallow embedding of
    - [src/server/depth_anything.py]: [analyze_depth_array],
      [get_default_depth_result] and the estimator entry points;
    - [src/server/main.py]: the pixel cleanup loop and the fallbacks of
      [remove_green_background], and the expression batch of
      [generate_images_with_vertex_simple].

    Depth values are finite numbers, modelled exactly as [Q]: both callers
    of [analyze_depth_array] pass an 8-bit grayscale array.  Float
    comparisons of the source are modelled on exact rationals; the comments
    at each definition say why they agree on the inputs the code receives. *)

From stdpp Require Import base list sorting gmap strings pretty.
From Stdlib Require Import QArith Qround Qminmax Lqa Lia ZArith Bool.

Open Scope string_scope.

(* ================================================================== *)
(** ** Depth segmentation ([depth_anything.py]) *)

Module Depth.

(** A depth array, row-major: [grid !! row !! col]. *)
Definition grid := list (list Q).

Definition Qlt_bool (x y : Q) : bool := negb (Qle_bool y x).

(** [np.min] / [np.max] / [np.mean]: raise on an empty array. *)
Definition np_min (l : list Q) : option Q :=
  match l with
  | [] => None
  | x :: r => Some (fold_left Qmin r x)
  end.

Definition np_max (l : list Q) : option Q :=
  match l with
  | [] => None
  | x :: r => Some (fold_left Qmax r x)
  end.

Definition np_mean (l : list Q) : option Q :=
  match l with
  | [] => None
  | _ => Some (fold_right Qplus 0 l / inject_Z (Z.of_nat (length l)))
  end.

#[global] Instance Qle_RelDec : RelDecision Qle :=
  fun x y => match Qlt_le_dec y x with
             | left H => right (Qlt_not_le _ _ H)
             | right H => left H
             end.

(** [np.sort] of the flattened array. *)
Definition np_sort (l : list Q) : list Q := merge_sort Qle l.

(** Linear interpolation [a + (b - a) * t] (numpy's [_lerp], exact). *)
Definition lerp (a b t : Q) : Q := a + (b - a) * t.

(** numpy's [_quantile] on the sorted array [s] with the default
    "linear" method: the virtual index is [(n - 1) * q / 100]; an index at
    or above [n - 1] takes the last element; otherwise the value is
    interpolated between the two neighbouring order statistics. *)
Definition percentile_sorted (s : list Q) (q : Q) : Q :=
  let n := length s in
  let vi := inject_Z (Z.of_nat n - 1) * (q / 100) in
  if Qle_bool (inject_Z (Z.of_nat n - 1)) vi
  then nth (n - 1) s 0
  else
    let prev := Z.to_nat (Qfloor vi) in
    lerp (nth prev s 0) (nth (S prev) s 0) (vi - inject_Z (Qfloor vi)).

(** [np.percentile(l, q)]; an empty array raises. *)
Definition np_percentile (l : list Q) (q : Q) : option Q :=
  match np_sort l with
  | [] => None
  | s => Some (percentile_sorted s q)
  end.

Definition mask := list (list bool).

(** [depth_array < p], [(depth_array >= p) & (depth_array < p')],
    [depth_array >= p'] elementwise. *)
Definition foreground_mask (g : grid) (p30 : Q) : mask :=
  map (map (fun v => Qlt_bool v p30)) g.
Definition midground_mask (g : grid) (p30 p70 : Q) : mask :=
  map (map (fun v => negb (Qlt_bool v p30) && Qlt_bool v p70)) g.
Definition background_mask (g : grid) (p70 : Q) : mask :=
  map (map (fun v => negb (Qlt_bool v p70))) g.

(** The percentiles and the three masks, as computed at lines 138-143;
    [None] when numpy raises (empty array). *)
Definition masks (g : grid) : option (mask * mask * mask) :=
  p30 ← np_percentile (concat g) 30;
  p70 ← np_percentile (concat g) 70;
  Some (foreground_mask g p30, midground_mask g p30 p70, background_mask g p70).

(** Number of [True] cells ([np.sum(mask)]). *)
Definition mask_count (m : mask) : nat :=
  fold_right (fun row acc => (length (filter (fun b : bool => b) row) + acc)%nat) 0%nat m.

(** Cell coordinates [(row, col)] of the [True] cells of a mask, row by
    row ([np.column_stack(np.where(mask))]). *)
Definition mask_coords (m : mask) : list (nat * nat) :=
  concat (imap (fun r row =>
    omap (fun '(c, b) => if (b : bool) then Some (r, c) else None)
         (imap pair row)) m).

Definition avg_nat (l : list nat) : Q :=
  fold_right Qplus 0 (map (fun i => inject_Z (Z.of_nat i)) l)
    / inject_Z (Z.of_nat (length l)).

Record point := { px : Q; py : Q }.

(** [get_region_center]: centroid in percent of the array shape, or
    [(50, 50)] for an empty mask.  [shape[1]] is the length of a row. *)
Definition get_region_center (g : grid) (m : mask) : point :=
  let coords := mask_coords m in
  match coords with
  | [] => {| px := 50; py := 50 |}
  | _ =>
    let center_y := avg_nat (map fst coords)
                      / inject_Z (Z.of_nat (length g)) * 100 in
    let center_x := avg_nat (map snd coords)
                      / inject_Z (Z.of_nat (length (hd [] g))) * 100 in
    {| px := center_x; py := center_y |}
  end.

Record bounds := { bx : Q; by_ : Q; bwidth : Q; bheight : Q }.

Record subject_detection := {
  has_person : bool;
  person_position : string;
  person_description : string;
  person_bounds : bounds;
  confidence : option Q   (** absent from the default result *)
}.

Record layer := {
  name : string;
  depth : Q;
  content : option string;   (** absent from the default result *)
  parallax_strength : string;
  movement : string;
  scale : Q;
  blur : Q;
  opacity : Q;
  animation_speed : Q
}.

Record depth_statistics := {
  st_min : Q; st_max : Q; st_mean : Q; st_foreground_ratio : Q
}.

Record depth_result := {
  subject_detection_of : subject_detection;
  layers : list layer;
  depth_statistics_of : option depth_statistics   (** absent from the default *)
}.

(** [np.sum(foreground_mask) / depth_array.size]. *)
Definition foreground_ratio (g : grid) (fg : mask) : Q :=
  inject_Z (Z.of_nat (mask_count fg)) / inject_Z (Z.of_nat (length (concat g))).

(** [0.05 < foreground_ratio < 0.5].  The float quotient of two counts
    below 2^53 is on the same side of the double constants 0.05 and 0.5
    as the exact quotient, and equal to them exactly when the exact
    quotient is 1/20 or 1/2. *)
Definition has_person_of (ratio : Q) : bool :=
  Qlt_bool (5 # 100) ratio && Qlt_bool ratio (1 # 2).

(** The body of the [try] of [analyze_depth_array], lines 133-214;
    [None] where numpy raises. *)
Definition analyze_core (g : grid) : option depth_result :=
  min_depth ← np_min (concat g);
  max_depth ← np_max (concat g);
  mean_depth ← np_mean (concat g);
  '(fg, mg, bg) ← masks g;
  let foreground_center := get_region_center g fg in
  let ratio := foreground_ratio g fg in
  let has_person := has_person_of ratio in
  Some {|
    subject_detection_of := {|
      has_person := has_person;
      person_position := if has_person then "foreground" else "unknown";
      person_description := "Detected subject in foreground based on depth map";
      person_bounds := {| bx := px foreground_center - 20;
                          by_ := py foreground_center - 30;
                          bwidth := 40; bheight := 60 |};
      confidence := Some ratio |};
    layers := [
      {| name := "background"; depth := 85;
         content := Some "Far background elements";
         parallax_strength := "strong"; movement := "horizontal";
         scale := 13 # 10; blur := 25 # 10; opacity := 85 # 100;
         animation_speed := 35 |};
      {| name := "midground"; depth := 50;
         content := Some "Middle distance elements";
         parallax_strength := "medium"; movement := "both";
         scale := 115 # 100; blur := 1; opacity := 92 # 100;
         animation_speed := 28 |};
      {| name := "foreground"; depth := 15;
         content := Some (if has_person then "Person/subject detected"
                          else "Foreground elements");
         parallax_strength := "weak"; movement := "horizontal";
         scale := 1; blur := 0; opacity := 1;
         animation_speed := 22 |} ];
    depth_statistics_of := Some {|
      st_min := min_depth; st_max := max_depth; st_mean := mean_depth;
      st_foreground_ratio := ratio |} |}.

(** [get_default_depth_result]. *)
Definition get_default_depth_result : depth_result := {|
  subject_detection_of := {|
    has_person := false;
    person_position := "unknown";
    person_description := "No depth analysis available";
    person_bounds := {| bx := 50; by_ := 50; bwidth := 30; bheight := 40 |};
    confidence := None |};
  layers := [
    {| name := "background"; depth := 90; content := None;
       parallax_strength := "strong"; movement := "horizontal";
       scale := 13 # 10; blur := 3; opacity := 8 # 10;
       animation_speed := 30 |};
    {| name := "midground"; depth := 50; content := None;
       parallax_strength := "medium"; movement := "both";
       scale := 11 # 10; blur := 1; opacity := 9 # 10;
       animation_speed := 25 |};
    {| name := "foreground"; depth := 10; content := None;
       parallax_strength := "weak"; movement := "horizontal";
       scale := 1; blur := 0; opacity := 1;
       animation_speed := 20 |} ];
  depth_statistics_of := None |}.

(** [analyze_depth_array]: any exception of the body is caught and the
    default result returned. *)
Definition analyze_depth_array (g : grid) : depth_result :=
  match analyze_core g with
  | Some r => r
  | None => get_default_depth_result
  end.

(** The external capabilities: the outcome of the HTTP request / local
    model, [None] when it raises. *)
Inductive hf_response :=
  | HfStatus (code : Z)          (** a non-200 answer *)
  | HfOk (payload : option grid) (** 200; [None] when the payload does not
                                      decode to an image ([analyze_depth_map]
                                      catches that and returns the default) *).

(** [analyze_depth_map] after decoding. *)
Definition analyze_depth_map (decoded : option grid) : depth_result :=
  match decoded with
  | Some g => analyze_depth_array g
  | None => get_default_depth_result
  end.

(** [estimate_depth_hf_api]; [None] is a raised request. *)
Definition estimate_depth_hf_api (resp : option hf_response) : depth_result :=
  match resp with
  | None => get_default_depth_result
  | Some (HfStatus _) => get_default_depth_result
  | Some (HfOk decoded) => analyze_depth_map decoded
  end.

(** [estimate_depth_local]; [None] is a raised import or model call. *)
Definition estimate_depth_local (depth : option grid) : depth_result :=
  match depth with
  | None => get_default_depth_result
  | Some g => analyze_depth_array g
  end.

(** [estimate_depth_with_depth_anything], with the outcome of each
    external estimator. *)
Definition estimate_depth_with_depth_anything
    (use_local : bool) (hf : option hf_response) (local : option grid)
    : depth_result :=
  if use_local then estimate_depth_local local else estimate_depth_hf_api hf.

(** Cell [(row, col)] of a row-major array. *)
Definition cell {A} (m : list (list A)) (r c : nat) : option A :=
  m !! r ≫= fun row => row !! c.

End Depth.

(* ================================================================== *)
(** ** Matte cleanup ([remove_green_background], main.py 873-942) *)

Module Matte.

Local Open Scope Z_scope.

(** An 8-bit RGBA pixel as [pixels[x, y]] returns it. *)
Record pixel := mkPixel { pr : Z; pg : Z; pb : Z; pa : Z }.

(** PIL's pixel access object: [pixels[x, y]]. *)
Definition buffer := Z -> Z -> pixel.

Record image := mkImage { width : Z; height : Z; pixels : buffer }.

(** [pixels[x, y] = p]. *)
Definition set_px (buf : buffer) (x y : Z) (p : pixel) : buffer :=
  fun x' y' => if (x' =? x) && (y' =? y) then p else buf x' y'.

(** [range(n)]. *)
Definition range (n : Z) : list Z := map Z.of_nat (seq 0 (Z.to_nat n)).

(** [g > r * 1.2 and g > b * 1.2].  For integer channels in 0..255 the
    double product [r * 1.2] lies on the same side of an integer [g] as
    the exact [6r/5] (when [6r/5] is an integer the product rounds to it),
    so the test is [5g > 6r] exactly. *)
Definition green_dominant (r g b : Z) : bool := (6 * r <? 5 * g) && (6 * b <? 5 * g).

(** [g > r * 1.5 and g > b * 1.5 and g > 150] (1.5 is exact in binary). *)
Definition green_spill (r g b : Z) : bool :=
  (3 * r <? 2 * g) && (3 * b <? 2 * g) && (150 <? g).

(** [int((r + b) / 2)] for non-negative channels. *)
Definition avg_rb (r b : Z) : Z := (r + b) / 2.

(** The neighbour scan of lines 910-922: some in-range 8-neighbour whose
    alpha, as read from [buf], is below 255 (the two [break]s only stop
    the scan early). *)
Definition is_edge (buf : buffer) (w h x y : Z) : bool :=
  existsb (fun dx =>
    existsb (fun dy =>
      if (dx =? 0) && (dy =? 0) then false
      else
        let nx := x + dx in
        let ny := y + dy in
        if (0 <=? nx) && (nx <? w) && (0 <=? ny) && (ny <? h)
        then pa (buf nx ny) <? 255
        else false) [-1; 0; 1]) [-1; 0; 1].

(** One iteration of the loop body, lines 888-927, on the live buffer. *)
Definition step (w h : Z) (buf : buffer) (x y : Z) : buffer :=
  let p := buf x y in
  let r := pr p in let g := pg p in let b := pb p in let a := pa p in
  if (0 <? a) && (a <? 255) then
    let buf1 :=
      if green_dominant r g b
      then set_px buf x y (mkPixel r (avg_rb r b) b a)
      else buf in
    if a <? 30 then set_px buf1 x y (mkPixel r g b 0)
    else if 225 <? a then set_px buf1 x y (mkPixel r g b 255)
    else buf1
  else if a =? 255 then
    if green_spill r g b then
      if is_edge buf w h x y
      then set_px buf x y (mkPixel r (avg_rb r b) b a)
      else buf
    else buf
  else buf.

(** The cleanup loop: [for y in range(height): for x in range(width)],
    mutating one buffer in place. *)
Definition cleanup_pass (img : image) : image :=
  let w := width img in
  let h := height img in
  mkImage w h
    (fold_left (fun buf y => fold_left (fun buf x => step w h buf x y) (range w) buf)
       (range h) (pixels img)).

(** The value the loop body leaves at [(x, y)] when it reads the own pixel
    and the neighbours' alpha through [get]. *)
Definition cell_update (get : buffer) (w h x y : Z) : pixel :=
  let p := get x y in
  let r := pr p in let g := pg p in let b := pb p in let a := pa p in
  if (0 <? a) && (a <? 255) then
    if a <? 30 then mkPixel r g b 0
    else if 225 <? a then mkPixel r g b 255
    else if green_dominant r g b then mkPixel r (avg_rb r b) b a
    else p
  else if a =? 255 then
    if green_spill r g b && is_edge get w h x y
    then mkPixel r (avg_rb r b) b a
    else p
  else p.

Definition in_range (w h x y : Z) : bool := (0 <=? x) && (x <? w) && (0 <=? y) && (y <? h).

(** Reference pass of the spec (section 4.3): every read, own pixel and
    neighbour alpha, is taken from the pre-pass snapshot. *)
Definition snapshot_cleanup_pass (img : image) : image :=
  let w := width img in
  let h := height img in
  mkImage w h (fun x y =>
    if in_range w h x y then cell_update (pixels img) w h x y else pixels img x y).

(** The per-pixel transformation in the words of the spec (section 4.3),
    on the input image: green-dominant partial pixels get the red/blue
    average as green and then the alpha snap; green-spill opaque pixels
    with a neighbour of alpha below 255 get the average; alpha 0 stays. *)
Definition spec_clean_pixel (img : image) (x y : Z) : pixel :=
  let p := pixels img x y in
  let r := pr p in let g := pg p in let b := pb p in let a := pa p in
  if (0 <? a) && (a <? 255) then
    let g' := if green_dominant r g b then avg_rb r b else g in
    let a' := if a <? 30 then 0 else if 225 <? a then 255 else a in
    mkPixel r g' b a'
  else if a =? 255 then
    if green_spill r g b && is_edge (pixels img) (width img) (height img) x y
    then mkPixel r (avg_rb r b) b a
    else p
  else p.

(** The fallback of the spec (section 4.3): a global pass over the original
    image making transparent every pixel a fixed channel test classifies
    as green, other pixels unchanged. *)
Definition threshold_pass (transparent : Z -> Z -> Z -> bool) (img : image) : image :=
  mkImage (width img) (height img) (fun x y =>
    let p := pixels img x y in
    if transparent (pr p) (pg p) (pb p) then mkPixel (pr p) (pg p) (pb p) 0 else p).

(** [remove_green_background] over encoded images of type [B]: the external
    [remove(..., alpha_matting=True, ...)] call, decoding to RGBA, the
    cleanup loop and PNG encoding may each raise ([None]); any exception
    falls back to the basic [remove(image_bytes)], and if that raises too
    the original bytes are returned. *)
Definition remove_green_background {B : Type}
    (remove_matting remove_basic : B -> option B)
    (decode : B -> option image) (encode : image -> option B)
    (image_bytes : B) : B :=
  match removed ← remove_matting image_bytes;
        img ← decode removed;
        encode (cleanup_pass img) with
  | Some out => out
  | None =>
    match remove_basic image_bytes with
    | Some out => out
    | None => image_bytes
    end
  end.

(** Auxiliary: the alpha a pixel has once the loop has visited it
    (the loop body never changes an alpha otherwise). *)
Definition snap_alpha (a : Z) : Z :=
  if (0 <? a) && (a <? 255) then
    if a <? 30 then 0 else if 225 <? a then 255 else a
  else a.

(** Auxiliary: [(x', y')] comes before [(x, y)] in the loop's row-major order. *)
Definition before (x' y' x y : Z) : bool := (y' <? y) || ((y' =? y) && (x' <? x)).

(** Auxiliary: the buffer as the loop reads it when it reaches [(x, y)],
    as far as alpha goes: pixels visited earlier carry their snapped alpha. *)
Definition visited_view (img : image) (x y : Z) : buffer :=
  fun x' y' =>
    let p := pixels img x' y' in
    if before x' y' x y then mkPixel (pr p) (pg p) (pb p) (snap_alpha (pa p)) else p.

(** Auxiliary: the neighbour test of the loop at [(x, y)] stated on the
    input image: a neighbour visited earlier counts when its input alpha
    is at most 225 (it was not snapped to 255), a later one when its
    input alpha is below 255. *)
Definition edge_in_pass (img : image) (x y : Z) : bool :=
  existsb (fun dx =>
    existsb (fun dy =>
      if (dx =? 0) && (dy =? 0) then false
      else
        let nx := x + dx in
        let ny := y + dy in
        if (0 <=? nx) && (nx <? width img) && (0 <=? ny) && (ny <? height img)
        then
          if before nx ny x y then pa (pixels img nx ny) <=? 225
          else pa (pixels img nx ny) <? 255
        else false) [-1; 0; 1]) [-1; 0; 1].

(** Auxiliary: the invariant of the loop when it is about to visit
    [(x, y)]: every pixel visited earlier holds the value the body computed
    from [visited_view], every other pixel is still the input pixel. *)
Definition loop_inv (img : image) (buf : buffer) (x y : Z) : Prop :=
  forall x' y', in_range (width img) (height img) x' y' = true ->
    (before x' y' x y = true ->
       buf x' y' = cell_update (visited_view img x' y') (width img) (height img) x' y') /\
    (before x' y' x y = false -> buf x' y' = pixels img x' y').

End Matte.

(* ================================================================== *)
(** ** Expression batch ([generate_images_with_vertex_simple], main.py 651-763) *)

Module Batch.

Definition bytes := list Byte.byte.

(** The arguments of one [request_gemini_image] call. *)
Record request := mkRequest {
  req_prompt : string;
  req_seed : Z;
  req_base_image : option bytes;   (** [base_image=...], absent by default *)
  req_negative_prompt : string
}.

(** The external generation service: the image of a call, [None] when the
    call raises (HTTP error, no image in the answer, timeout). *)
Definition service := request -> option bytes.

Definition newline : string := String.String (Ascii.ascii_of_nat 10) String.EmptyString.

Definition negative_prompt : string :=
  "low quality, blurry, dark, underexposed, dim lighting, watermark, text, signature, multiple people, inconsistent character, white background, green outline, green edge, green spill, green fringe, green glow, green halo, chromatic aberration, color bleeding, color fringing, artifacts around edges, fuzzy edges, blurred edges".

(** [build_expression_edit_prompt] (main.py 1026-1035). *)
Definition build_expression_edit_prompt (base_prompt expression_block : string) : string :=
  base_prompt ++ newline ++ expression_block ++ newline ++ newline ++
  "【追加指示】参照画像として添付された既存の立ち絵を使用し、" ++
  "髪型・衣装・体格・ポーズ・照明・背景・線のタッチは一切変更せず、" ++
  "顔の表情だけを指定された内容に差し替える。ビフォーアフターで人物は完全に同一であり、" ++
  "追加の人物や構図変更は厳禁。".

(** [f"{base_prompt}\n{block}"]: the text-generation prompt of an
    expression (the first image and the fallback). *)
Definition text_prompt (base_prompt expression_block : string) : string :=
  base_prompt ++ newline ++ expression_block.

Definition edit_request (base_prompt : string) (seed : Z) (base_image : bytes)
    (expression_block : string) : request :=
  mkRequest (build_expression_edit_prompt base_prompt expression_block) seed
            (Some base_image) negative_prompt.

Definition text_request (base_prompt : string) (seed : Z)
    (expression_block : string) : request :=
  mkRequest (text_prompt base_prompt expression_block) seed None negative_prompt.

(** The nested [generate_expression]: the edit call with the base image;
    on any exception one fresh generation without it.  Returns the calls
    issued, in order, with the outcome. *)
Definition generate_expression (call : service) (base_prompt : string) (seed : Z)
    (base_image : bytes) (expression_data : string * string)
    : list request * option bytes :=
  let '(expression_name, expression_block) := expression_data in
  let edit := edit_request base_prompt seed base_image expression_block in
  match call edit with
  | Some result => ([edit], Some result)
  | None =>
    let fallback := text_request base_prompt seed expression_block in
    ([edit; fallback], call fallback)
  end.

(** [future_to_expression]: task index [1..] to expression. *)
Definition future_to_expression (rest : list (string * string))
    : gmap nat (string * string) :=
  list_to_map (zip (seq 1 (length rest)) rest).

(** One iteration of the [as_completed] loop: a failed future raises
    [HTTPException], otherwise [results[idx] = result]. *)
Definition collect_step (call : service) (base_prompt : string) (seed : Z)
    (base_image : bytes) (rest : list (string * string))
    (acc : option (gmap nat bytes)) (idx : nat) : option (gmap nat bytes) :=
  results ← acc;
  exp_data ← future_to_expression rest !! idx;
  result ← snd (generate_expression call base_prompt seed base_image exp_data);
  Some (<[idx := result]> results).

(** The [as_completed] loop: futures are consumed in [completion_order]
    (the indices in the order their calls finish). *)
Definition collect_results (call : service) (base_prompt : string) (seed : Z)
    (base_image : bytes) (rest : list (string * string))
    (completion_order : list nat) : option (gmap nat bytes) :=
  fold_left (collect_step call base_prompt seed base_image rest)
    completion_order (Some ∅).

(** [generate_images_with_vertex_simple] after the credential check, for
    the list of [(name, block)] expressions (four fixed ones in the
    source).  [None] is the [HTTPException] it raises: an empty list fails
    at [expressions[0]]; any failed call is re-raised. *)
Definition generate_images (call : service) (base_prompt : string) (seed : Z)
    (expressions : list (string * string)) (completion_order : list nat)
    : option (list bytes) :=
  match expressions with
  | [] => None
  | (first_name, first_block) :: rest =>
    base_image ← call (text_request base_prompt seed first_block);
    results ← collect_results call base_prompt seed base_image rest completion_order;
    Some (base_image ::
          map (fun idx => results !!! idx)
              (merge_sort Nat.le (map fst (map_to_list results))))
  end.

End Batch.

(* ================================================================== *)
(** ** JSON values as the Python code handles them *)

Module Json.

(** A value of [json.loads] / a dict literal of the code.  Numbers (int
    and float alike) are exact rationals; a dict is its entries in
    insertion order, with distinct keys. *)
#[warnings="-register-all"]
Inductive json :=
  | JNull
  | JBool (b : bool)
  | JNum (q : Q)
  | JStr (s : string)
  | JList (l : list json)
  | JDict (kv : list (string * json)).

Fixpoint dict_lookup (kv : list (string * json)) (k : string) : option json :=
  match kv with
  | [] => None
  | (k', v) :: kv' => if String.eqb k k' then Some v else dict_lookup kv' k
  end.

(** [v[k]] with a string key: a dict looks the key up ([KeyError] when it
    is missing); a list, a string, a number, a bool or [None] raises
    [TypeError].  [None] is the raised exception. *)
Definition get_item (v : json) (k : string) : option json :=
  match v with
  | JDict kv => dict_lookup kv k
  | _ => None
  end.

(** [v.get(k, default)]: only a dict has [get] ([AttributeError]
    otherwise). *)
Definition py_get (v : json) (k : string) (default : json) : option json :=
  match v with
  | JDict kv => Some (match dict_lookup kv k with Some x => x | None => default end)
  | _ => None
  end.

(** [v[0]]: the first element of a list, the first character of a
    string; an empty sequence raises [IndexError], a dict (string keys)
    [KeyError], anything else [TypeError]. *)
Definition py_index0 (v : json) : option json :=
  match v with
  | JList (x :: _) => Some x
  | JStr (String.String c _) => Some (JStr (String.String c String.EmptyString))
  | _ => None
  end.

(** Python truthiness. *)
Definition truthy (v : json) : bool :=
  match v with
  | JNull => false
  | JBool b => b
  | JNum q => negb (Qeq_bool q 0)
  | JStr s => negb (String.eqb s String.EmptyString)
  | JList l => negb (bool_decide (l = []))
  | JDict kv => negb (bool_decide (kv = []))
  end.

(** [for x in v]: a list gives its elements, a string its characters, a
    dict its keys; a number, a bool or [None] is not iterable.  (The
    characters of a string are its bytes here; the callers only depend on
    whether there are any.) *)
Definition py_iter (v : json) : option (list json) :=
  match v with
  | JList l => Some l
  | JStr s => Some (map (fun c => JStr (String.String c String.EmptyString))
                        (String.list_ascii_of_string s))
  | JDict kv => Some (map (fun '(k, _) => JStr k) kv)
  | _ => None
  end.

(** A value in arithmetic: ints and floats, and bools (a subclass of
    int); a string, list, dict or [None] raises [TypeError] in the
    divisions the callers make. *)
Definition as_number (v : json) : option Q :=
  match v with
  | JNum q => Some q
  | JBool b => Some (if b then 1 else 0)
  | _ => None
  end.

(** [a / b]: [ZeroDivisionError] on a zero divisor. *)
Definition py_div (a b : Q) : option Q :=
  if Qeq_bool b 0 then None else Some (a / b).

End Json.

(* ================================================================== *)
(** ** Parallax configuration ([generate_parallax_config], main.py
       417-465) and the depth results as dicts *)

Module Parallax.
Import Json.

(** A Python [float]: a binary64 double, kept as its exact value, or an
    infinity.  No computation of [generate_parallax_config] gives a NaN;
    the sign of a zero is not kept. *)
Inductive float :=
  | Finite (v : Q)
  | Infinity (negative : bool).

Definition is_finite (v : float) : bool :=
  match v with Finite _ => true | Infinity _ => false end.

(** [x] rounded to binary64, to nearest with ties to even (the rounding of
    every float operation and of [int / int] and [float(int)] in Python):
    [x = m * 2^k] with an integer [m] below [2^53] and the exponent [k] at
    least [-1074] (subnormals); a result of magnitude [2^1024] or more
    overflows to an infinity. *)
Definition round64 (x : Q) : float :=
  let n := Z.abs (Qnum x) in
  let d := Zpos (Qden x) in
  if Z.eqb n 0 then Finite 0 else
  (* [e = floor (log2 (n / d))] *)
  let e0 := (Z.log2 n - Z.log2 d)%Z in
  let e := if Z.leb 0 e0
           then (if Z.leb (d * 2 ^ e0) n then e0 else (e0 - 1)%Z)
           else (if Z.leb d (n * 2 ^ (- e0)) then e0 else (e0 - 1)%Z) in
  let k := Z.max (e - 52) (-1074) in
  (* [n / d = num / den * 2^k] *)
  let num := if Z.leb 0 k then n else (n * 2 ^ (- k))%Z in
  let den := if Z.leb 0 k then (d * 2 ^ k)%Z else d in
  let m := Z.div num den in
  let m' := match Z.compare (2 * Z.modulo num den) den with
            | Lt => m
            | Gt => (m + 1)%Z
            | Eq => if Z.even m then m else (m + 1)%Z
            end in
  let magnitude := if Z.leb 0 k then inject_Z (m' * 2 ^ k) else Qmake m' (Z.to_pos (2 ^ (- k))) in
  let negative := Z.ltb (Qnum x) 0 in
  if Qle_bool (inject_Z (2 ^ 1024)) magnitude then Infinity negative
  else Finite (if negative then - magnitude else magnitude).

(** The double a float literal of the source denotes. *)
Definition literal (x : Q) : Q :=
  match round64 x with Finite v => v | Infinity _ => 0 end.

(** [1 / v] for a float [v]: [ZeroDivisionError] on zero, and
    [1 / inf = 0.0]. *)
Definition float_recip (v : float) : option float :=
  match v with
  | Finite w => if Qeq_bool w 0 then None else Some (round64 (1 / w))
  | Infinity _ => Some (Finite 0)
  end.

(** [c * v] for a positive constant [c] and a float [v]. *)
Definition float_scale (c : Q) (v : float) : float :=
  match v with
  | Finite w => round64 (c * w)
  | Infinity negative => Infinity negative
  end.

Record animation := mkAnimation {
  anim_type : string;
  amplitude : float;
  frequency : float;
  phase : Q
}.

Record layer_config := mkLayerConfig {
  lc_id : json;
  lc_depth : json;
  animations : list animation
}.

Record parallax_config := mkParallaxConfig {
  config_layers : list layer_config;
  animation_type : string;
  global_speed : Q
}.

(** [layer["movement"] in [...]]: equal to one of the strings. *)
Definition movement_in (v : json) (options : list string) : bool :=
  match v with
  | JStr s => existsb (String.eqb s) options
  | _ => false
  end.

(** [layer["animation_speed"]] in the arithmetic of lines 444, 452 and
    460: a missing key raises, a value that is not a number raises
    [TypeError] (a string or list is first repeated by [* 2], then
    [1 / ...] raises). *)
Definition animation_speed_of (layer : json) : option Q :=
  v ← get_item layer "animation_speed"; as_number v.

(** The body of the loop over the layers (lines 428-463) for one layer;
    [None] is a raised exception.  A JSON number is an [int] or a [float]
    (a double); the arithmetic rounds as Python does:
    - [layer["depth"] / 100] is one correctly rounded division for an int
      and for a float; only an int gets past the double range, and
      [int / int] then raises [OverflowError];
    - [30 * depth_factor], [20 * depth_factor] and [0.05 * (1 -
      depth_factor)] are float operations, which overflow to [inf];
    - [1 / speed] is [int / int] or a float division: one rounding, an
      infinity for a float speed below about [5.6e-309];
    - [speed * 1.2] converts an int speed to a float first, which raises
      [OverflowError] past the double range, then rounds the product;
    - [speed * 2] is exact for an int; for a float it is exact or [inf],
      and [1 / inf] is [0.0].  The model takes a speed whose double [2 *
      speed] overflows as a float; an int speed of that size (above about
      [9e307]) gets the frequency [1 / (2 * speed)] in Python, not [0.0]. *)
Definition layer_config_of (layer : json) : option layer_config :=
  name ← get_item layer "name";
  d ← get_item layer "depth";
  dq ← as_number d;
  depth_factor ← (match round64 (dq / 100) with
                  | Finite v => Some v
                  | Infinity _ => None
                  end);
  mv ← get_item layer "movement";
  anims_x ← (if movement_in mv ["horizontal"; "both"] then
               s ← animation_speed_of layer;
               f ← (if Qeq_bool s 0 then None else Some (round64 (1 / s)));
               Some [mkAnimation "translateX" (round64 (30 * depth_factor)) f 0]
             else Some []);
  anims_y ← (if movement_in mv ["vertical"; "both"] then
               s ← animation_speed_of layer;
               s_float ← (match round64 s with
                          | Finite v => Some v
                          | Infinity _ => None
                          end);
               f ← float_recip (round64 (s_float * literal (12 # 10)));
               Some [mkAnimation "translateY" (round64 (20 * depth_factor)) f (25 # 100)]
             else Some []);
  s ← animation_speed_of layer;
  f ← (if Qeq_bool s 0 then None else
       match round64 (s * 2) with
       | Infinity _ => Some (Finite 0)
       | Finite _ => Some (round64 (1 / (s * 2)))
       end);
  Some (mkLayerConfig name d
          (anims_x ++ anims_y ++
           [mkAnimation "scale" (float_scale (literal (5 # 100)) (round64 (1 - depth_factor)))
                        f (5 # 10)])%list).

(** The numbers of a configuration [json.dumps] accepts: [JSONResponse]
    serialises with [allow_nan=False], which raises [ValueError] on an
    infinity. *)
Definition config_json_ok (cfg : parallax_config) : bool :=
  forallb (fun lc => forallb (fun a => is_finite (amplitude a) && is_finite (frequency a))
                             (animations lc))
          (config_layers cfg).

(** [generate_parallax_config(depth_layers)] for a dict [depth_layers];
    [None] is a raised exception. *)
Definition generate_parallax_config (depth_layers : list (string * json))
    : option parallax_config :=
  layers_v ← py_get (JDict depth_layers) "layers" (JList []);
  layers ← py_iter layers_v;
  cfgs ← fold_left (fun acc layer =>
                      cfgs ← acc;
                      lc ← layer_config_of layer;
                      Some (cfgs ++ [lc])%list)
                   layers (Some []);
  Some (mkParallaxConfig cfgs "time-based" 1).

(** [get_default_depth_layers] (main.py 378-415). *)
Definition get_default_depth_layers : list (string * json) :=
  [("layers", JList [
     JDict [("name", JStr "background"); ("depth", JNum 90);
            ("parallax_strength", JStr "strong"); ("movement", JStr "horizontal");
            ("scale", JNum (13 # 10)); ("blur", JNum 3); ("opacity", JNum (8 # 10));
            ("animation_speed", JNum 30)];
     JDict [("name", JStr "midground"); ("depth", JNum 50);
            ("parallax_strength", JStr "medium"); ("movement", JStr "both");
            ("scale", JNum (11 # 10)); ("blur", JNum 1); ("opacity", JNum (9 # 10));
            ("animation_speed", JNum 25)];
     JDict [("name", JStr "foreground"); ("depth", JNum 10);
            ("parallax_strength", JStr "weak"); ("movement", JStr "horizontal");
            ("scale", JNum 1); ("blur", JNum 0); ("opacity", JNum 1);
            ("animation_speed", JNum 20)]])].

(** The dicts [analyze_depth_array] and [get_default_depth_result]
    (depth_anything.py) return, from the record model of [Depth]: the same
    keys in the same order, the optional ones present exactly where the
    code writes them. *)
Definition layer_json (l : Depth.layer) : json :=
  JDict ([("name", JStr (Depth.name l)); ("depth", JNum (Depth.depth l))] ++
         match Depth.content l with Some c => [("content", JStr c)] | None => [] end ++
         [("parallax_strength", JStr (Depth.parallax_strength l));
          ("movement", JStr (Depth.movement l));
          ("scale", JNum (Depth.scale l)); ("blur", JNum (Depth.blur l));
          ("opacity", JNum (Depth.opacity l));
          ("animation_speed", JNum (Depth.animation_speed l))])%list.

Definition subject_detection_json (s : Depth.subject_detection) : json :=
  let b := Depth.person_bounds s in
  JDict ([("has_person", JBool (Depth.has_person s));
          ("person_position", JStr (Depth.person_position s));
          ("person_description", JStr (Depth.person_description s));
          ("person_bounds", JDict [("x", JNum (Depth.bx b)); ("y", JNum (Depth.by_ b));
                                   ("width", JNum (Depth.bwidth b));
                                   ("height", JNum (Depth.bheight b))])] ++
         match Depth.confidence s with Some c => [("confidence", JNum c)] | None => [] end)%list.

Definition depth_result_json (r : Depth.depth_result) : list (string * json) :=
  ([("subject_detection", subject_detection_json (Depth.subject_detection_of r));
   ("layers", JList (map layer_json (Depth.layers r)))] ++
  match Depth.depth_statistics_of r with
  | Some st => [("depth_statistics",
                 JDict [("min", JNum (Depth.st_min st)); ("max", JNum (Depth.st_max st));
                        ("mean", JNum (Depth.st_mean st));
                        ("foreground_ratio", JNum (Depth.st_foreground_ratio st))])]
  | None => []
  end)%list.

End Parallax.

(* ================================================================== *)
(** ** The depth endpoint ([estimate_depth], main.py 138-226) and
       [analyze_depth_with_gemini] (main.py 228-376) *)

Module DepthEndpoint.
Import Json Parallax.

Definition bytes := list Byte.byte.

Fixpoint from_first (c : Ascii.ascii) (l : list Ascii.ascii) : list Ascii.ascii :=
  match l with
  | [] => []
  | x :: r => if Ascii.eqb x c then l else from_first c r
  end.

Definition lbrace : Ascii.ascii := Ascii.ascii_of_nat 123.
Definition rbrace : Ascii.ascii := Ascii.ascii_of_nat 125.

(** [re.search(r'\{.*\}', content, re.DOTALL)]: the leftmost match starts
    at the first ['{'] and, [.*] being greedy, ends at the last ['}'] after
    it; no match when no ['}'] follows the first ['{'].  The braces are
    ASCII, so working on the UTF-8 bytes finds the same substring. *)
Definition extract_braces (content : string) : option string :=
  match from_first lbrace (String.list_ascii_of_string content) with
  | [] => None
  | _ :: rest =>
    match from_first rbrace (rev rest) with
    | [] => None
    | _ :: mid_rev =>
      Some (String.string_of_list_ascii (lbrace :: rev mid_rev ++ [rbrace]))
    end
  end.

(** The body of the [try] of [analyze_depth_with_gemini] (lines 239-372):
    [Some d] is [return depth_data]; [None] is a return of the default
    layers or a raised exception (the [except] returns the default too).
    [refresh_ok] is the outcome of [credentials.refresh]; [token] the
    credentials' token; [response] the outcome of the POST (its status and
    the outcome of [response.json()]); [json_loads] the outcome of
    [json.loads]. *)
Definition gemini_depth_try (refresh_ok : bool) (token : option string)
    (response : option (Z * option json)) (json_loads : string -> option json)
    : option (list (string * json)) :=
  if negb refresh_ok then None else
  match token with
  | None => None
  | Some t =>
    if String.eqb t "" then None else
    '(status, body) ← response;
    if negb (Z.eqb status 200) then None else
    result ← body;
    candidates ← get_item result "candidates";
    c0 ← py_index0 candidates;
    ct ← get_item c0 "content";
    parts ← get_item ct "parts";
    p0 ← py_index0 parts;
    txt ← get_item p0 "text";
    content ← (match txt with JStr s => Some s | _ => None end);
    m ← extract_braces content;
    depth_data ← json_loads m;
    sd ← py_get depth_data "subject_detection" (JDict []);
    _ ← py_get sd "has_person" (JBool false);
    match depth_data with JDict kv => Some kv | _ => None end
  end.

Definition analyze_depth_with_gemini (credentials : bool) (refresh_ok : bool)
    (token : option string) (response : option (Z * option json))
    (json_loads : string -> option json) : list (string * json) :=
  if negb credentials then get_default_depth_layers else
  match gemini_depth_try refresh_ok token response json_loads with
  | Some depth_data => depth_data
  | None => get_default_depth_layers
  end.

(** What the endpoint finds outside its arguments. *)
Record depth_env := mkDepthEnv {
  credentials : bool;                          (** [bool(credentials)] *)
  default_image : option bytes;                (** content of the first existing
                                                   default path, if any *)
  depth_anything_importable : bool;            (** the import at line 172 *)
  hf_outcome : bytes -> option Depth.hf_response;  (** the HF request *)
  prepare_png : bytes -> option string;        (** PIL open, thumbnail, PNG,
                                                   base64; [None] raises *)
  refresh_ok : bool;
  token : option string;
  gemini_post : string -> option (Z * option json);
  json_loads : string -> option json
}.

(** The JSON responses of the endpoint, or the [HTTPException]. *)
Inductive depth_response :=
  | DepthOk (depth_layers : list (string * json)) (config : parallax_config)
            (method : option string)
  | DepthError (status_code : Z).

(** The Gemini branch (lines 203-220). *)
Definition gemini_branch (env : depth_env) (image_bytes : bytes) : depth_response :=
  match prepare_png env image_bytes with
  | None => DepthError 500
  | Some image_base64 =>
    let depth_layers :=
      analyze_depth_with_gemini (credentials env) (refresh_ok env) (token env)
        (gemini_post env image_base64) (json_loads env) in
    match generate_parallax_config depth_layers with
    | Some cfg =>
      (* [JSONResponse] serialises the content: an infinite parallax number
         raises [ValueError], which ends as the 500 of the outer [except] *)
      if config_json_ok cfg then DepthOk depth_layers cfg (Some "gemini_1.5_flash")
      else DepthError 500
    | None => DepthError 500
    end
  end.

(** Whether the [has_person] of the Depth Anything result is a
    [numpy.bool_], which [json.dumps] refuses with [TypeError]: it is the
    value of [0.05 < foreground_ratio < 0.5] (depth_anything.py 158) with
    [foreground_ratio] a [numpy.float64], in the dict of an analysis that
    succeeds; the default result has Python's [False].  The cases follow
    [estimate_depth_hf_api], [analyze_depth_map] and [analyze_depth_array]
    ([Depth.estimate_depth_hf_api]).  The other numbers of the analysis are
    [numpy.float64] (a [float] subclass), Python ints and floats. *)
Definition hf_has_numpy_bool (resp : option Depth.hf_response) : bool :=
  match resp with
  | Some (Depth.HfOk (Some g)) =>
    match Depth.analyze_core g with
    | Some _ => true
    | None => false
    end
  | _ => false
  end.

(** Lines 169-220 for the image bytes: Depth Anything ([use_local=False])
    when asked for and importable, falling back to Gemini on an
    exception.  The [JSONResponse] of line 192 serialises its content
    inside the [try]: a [numpy.bool_] ([TypeError]) or an infinite
    parallax number ([ValueError]) is such an exception. *)
Definition estimate_with_image (env : depth_env) (use_depth_anything : bool)
    (image_bytes : bytes) : depth_response :=
  if use_depth_anything && depth_anything_importable env then
    let resp := hf_outcome env image_bytes in
    let depth_result :=
      depth_result_json (Depth.estimate_depth_with_depth_anything false resp None) in
    match generate_parallax_config depth_result with
    | Some cfg =>
      if negb (hf_has_numpy_bool resp) && config_json_ok cfg
      then DepthOk depth_result cfg (Some "depth_anything_v2")
      else gemini_branch env image_bytes
    | None => gemini_branch env image_bytes
    end
  else gemini_branch env image_bytes.

(** The response without an image (lines 160-166). *)
Definition fallback_response : depth_response :=
  match generate_parallax_config get_default_depth_layers with
  | Some cfg =>
    if config_json_ok cfg then DepthOk get_default_depth_layers cfg None else DepthError 500
  | None => DepthError 500
  end.

(** [estimate_depth(image_file, use_depth_anything)]; [uploaded] is the
    content of the uploaded file, if any.  Every exception, the missing
    credentials included, ends as an [HTTPException] with status 500. *)
Definition estimate_depth (env : depth_env) (uploaded : option bytes)
    (use_depth_anything : bool) : depth_response :=
  if negb (credentials env) then DepthError 500 else
  match uploaded with
  | Some image_bytes => estimate_with_image env use_depth_anything image_bytes
  | None =>
    match default_image env with
    | Some ((_ :: _) as image_bytes) => estimate_with_image env use_depth_anything image_bytes
    | _ => fallback_response
    end
  end.

End DepthEndpoint.

(* ================================================================== *)
(** ** [request_gemini_image] (main.py 467-649) *)

Module GeminiImage.
Import Json.

Definition bytes := list Byte.byte.

Definition newline : string := String.String (Ascii.ascii_of_nat 10) String.EmptyString.

(** [prompt_with_negative] (lines 476-481): the negative prompt is
    appended when it is truthy. *)
Definition prompt_with_negative (prompt : string) (negative_prompt : option string) : string :=
  match negative_prompt with
  | Some n =>
    if String.eqb n "" then prompt
    else prompt ++ newline ++ newline ++ "[Negative Prompt]" ++ newline ++ n
  | None => prompt
  end.

(** [request_body] (lines 510-563); [b64encode] is
    [base64.b64encode(_).decode("utf-8")]. *)
Definition request_body (b64encode : bytes -> string) (prompt : string) (seed : Z)
    (base_image : option bytes) (negative_prompt : option string)
    (response_modalities : option (list string)) : json :=
  let parts :=
    ((match base_image with
      | Some ((_ :: _) as b) =>
        [JDict [("inline_data", JDict [("mime_type", JStr "image/png");
                                      ("data", JStr (b64encode b))])]]
      | _ => []
      end) ++ [JDict [("text", JStr (prompt_with_negative prompt negative_prompt))]])%list in
  let effective_modalities :=
    match response_modalities with
    | Some ((_ :: _) as m) => m
    | _ => ["TEXT"; "IMAGE"]
    end in
  let generation_config :=
    JDict [("temperature", JNum (3 # 10)); ("topP", JNum (85 # 100)); ("topK", JNum 40);
           ("candidateCount", JNum 1); ("seed", JNum (inject_Z seed));
           ("responseModalities", JList (map JStr effective_modalities))] in
  let safety category :=
    JDict [("category", JStr category); ("threshold", JStr "BLOCK_ONLY_HIGH")] in
  JDict [("contents", JList [JDict [("role", JStr "user"); ("parts", JList parts)]]);
         ("generationConfig", generation_config);
         ("safetySettings", JList [safety "HARM_CATEGORY_DANGEROUS_CONTENT";
                                   safety "HARM_CATEGORY_HATE_SPEECH";
                                   safety "HARM_CATEGORY_HARASSMENT";
                                   safety "HARM_CATEGORY_SEXUALLY_EXPLICIT"])].

(** The answer of [requests.post]: its status, its text and the outcome
    of [response.json()]. *)
Record gemini_response := mkGeminiResponse {
  status_code : Z;
  text : string;
  response_json : option json
}.

(** What the function finds outside its arguments: [bool(credentials)],
    the outcome of [credentials.refresh], the token, and the POST
    ([None] when it raises). *)
Record gemini_env := mkGeminiEnv {
  g_credentials : bool;
  g_refresh_ok : bool;
  g_token : option string;
  g_post : json -> option gemini_response
}.

(** The outcome of a call: the image, an [HTTPException] or another
    exception. *)
Inductive image_outcome :=
  | ImageOk (image : bytes)
  | ImageHttpError (status_code : Z)
  | ImageException.

(** The search of lines 625-646: an image found, nothing found, or an
    exception on the way. *)
Inductive scan := Found (image : bytes) | NotFound | Raised.

(** [v.startswith("image")] on a value read from the answer: only a
    string has [startswith]. *)
Definition image_mime (v : json) : option bool :=
  match v with
  | JStr m => Some (String.prefix "image" m)
  | _ => None
  end.

(** [base64.b64decode(data["data"])]: a missing key raises [KeyError]; a
    non-string [TypeError]; [b64decode] itself may raise. *)
Definition decode_data (b64decode : string -> option bytes) (data : json) : scan :=
  match get_item data "data" with
  | Some (JStr s) => match b64decode s with Some b => Found b | None => Raised end
  | _ => Raised
  end.

(** One part (lines 631-638). *)
Definition scan_part (b64decode : string -> option bytes) (part : json) : scan :=
  match py_get part "inlineData" JNull with
  | None => Raised
  | Some a =>
    match (if truthy a then Some a else py_get part "inline_data" JNull) with
    | None => Raised
    | Some data =>
      if negb (truthy data) then NotFound else
      match py_get data "mimeType" (JStr "") with
      | None => Raised
      | Some mt =>
        match image_mime mt with
        | None => Raised
        | Some true => decode_data b64decode data
        | Some false =>
          match py_get data "mime_type" (JStr "") with
          | None => Raised
          | Some mt' =>
            match image_mime mt' with
            | None => Raised
            | Some true => decode_data b64decode data
            | Some false => NotFound
            end
          end
        end
      end
    end
  end.

(** A [for] loop whose body may return or raise. *)
Fixpoint scan_list (f : json -> scan) (l : list json) : scan :=
  match l with
  | [] => NotFound
  | x :: r => match f x with NotFound => scan_list f r | s => s end
  end.

(** One candidate (lines 626-630). *)
Definition scan_candidate (b64decode : string -> option bytes) (candidate : json) : scan :=
  match py_get candidate "content" (JDict []) with
  | None => Raised
  | Some ct =>
    match py_get ct "parts" (JList []) with
    | None => Raised
    | Some parts_v =>
      match py_iter parts_v with
      | None => Raised
      | Some parts => scan_list (scan_part b64decode) parts
      end
    end
  end.

(** Lines 622-646 on [result = response.json()]. *)
Definition find_image (b64decode : string -> option bytes) (result : json) : scan :=
  match py_get result "candidates" (JList []) with
  | None => Raised
  | Some cands_v =>
    match py_iter cands_v with
    | None => Raised
    | Some cands => scan_list (scan_candidate b64decode) cands
    end
  end.

Definition request_gemini_image (env : gemini_env) (b64encode : bytes -> string)
    (b64decode : string -> option bytes) (prompt : string) (seed : Z)
    (base_image : option bytes) (negative_prompt : option string)
    (response_modalities : option (list string)) : image_outcome :=
  if negb (g_credentials env) then ImageException else
  if negb (g_refresh_ok env) then ImageException else
  match g_token env with
  | None => ImageException
  | Some token =>
    if String.eqb token "" then ImageException else
    match g_post env (request_body b64encode prompt seed base_image negative_prompt
                        response_modalities) with
    | None => ImageException
    | Some response =>
      if negb (Z.eqb (status_code response) 200) then
        (* the parse of the error body only logs; its exceptions are caught *)
        if Z.eqb (status_code response) 400 then ImageHttpError 400
        else if Z.eqb (status_code response) 401 then ImageHttpError 401
        else if Z.eqb (status_code response) 403 then ImageHttpError 403
        else ImageHttpError (status_code response)
      else
        match response_json response with
        | None => ImageException
        | Some result =>
          match find_image b64decode result with
          | Found image => ImageOk image
          | _ => ImageException
          end
        end
    end
  end.

End GeminiImage.

(* ================================================================== *)
(** ** The generation endpoints (main.py 1391-1611) *)

Module GenerateEndpoint.
Import Json.

Definition bytes := list Byte.byte.

(** [SimpleCharacter] (main.py 65-74). *)
Record simple_character := mkSimpleCharacter {
  sc_character_id : string;
  sc_seed : Z;
  sc_age : string;
  sc_body_type : string;
  sc_eyes : string;
  sc_hair : string;
  sc_outfit : string;
  sc_accessories : option string;
  sc_other_features : option string
}.

(** [Character] (main.py 77-86). *)
Record character := mkCharacter {
  c_character_id : string;
  c_seed : Z;
  c_basic : list (string * json);
  c_hair : list (string * json);
  c_face : list (string * json);
  c_outfit : list (string * json);
  c_persona : list (string * json);
  c_framing : list (string * json);
  c_constraints : list (string * json)
}.

(** [EmoCharacter] (main.py 92-98). *)
Record emo_character := mkEmoCharacter {
  ec_character_id : string;
  ec_seed : Z;
  ec_height : string;
  ec_hair : string;
  ec_eyes : string;
  ec_outfit : string
}.

(** [FantasyCharacter] (main.py 100-110). *)
Record fantasy_character := mkFantasyCharacter {
  fc_character_id : string;
  fc_seed : Z;
  fc_height : string;
  fc_hair_length : string;
  fc_hair_color : string;
  fc_hair_style : string;
  fc_outfit : string;
  fc_eye_shape : string;
  fc_eye_color : string;
  fc_expression : string
}.

(** [SimpleGenerateRequest] (main.py 112-117). *)
Record simple_generate_request := mkSimpleGenerateRequest {
  character_field : option simple_character;
  return_type : string;
  mode : string;
  emo_character_field : option emo_character;
  fantasy_character_field : option fantasy_character
}.

(** [GenerateRequest] (main.py 88-90). *)
Record generate_request := mkGenerateRequest {
  g_character : character;
  g_return_type : string
}.

(** What the endpoints find outside the request: [bool(credentials)],
    the outcomes of the generators ([None] when they raise), of
    [remove_green_background] ([None] when it raises) and
    [base64.b64encode(_).decode("utf-8")]. *)
Record generate_env := mkGenerateEnv {
  credentials : bool;
  generate_images_with_vertex_simple : simple_character -> option (list bytes);
  generate_images_with_vertex : character -> option (list bytes);
  generate_emo_with_vertex : emo_character -> option (list bytes);
  generate_fantasy_with_vertex : fantasy_character -> option (list bytes);
  remove_green_background : bytes -> option bytes;
  b64encode : bytes -> string
}.

(** The answer: the JSON of the [base64_list] return type, the ZIP
    response (its entries in order and its [Content-Disposition]), or an
    [HTTPException]. *)
Inductive generate_response :=
  | ImagesJson (images : list string) (message : string)
  | ZipFile (entries : list (string * bytes)) (content_disposition : string)
  | GenerateError (status_code : Z).

(** [f"{i:02d}"] for [i >= 0]. *)
Definition pad2 (i : nat) : string :=
  if Nat.ltb i 10 then "0" ++ pretty i else pretty i.

(** The green-screen removal loop: the original image when the removal
    raises. *)
Definition remove_green_backgrounds (env : generate_env) (images : list bytes) : list bytes :=
  map (fun img_bytes =>
         match remove_green_background env img_bytes with
         | Some processed => processed
         | None => img_bytes
         end) images.

(** The entries written by the ZIP loop ([enumerate(processed_images, 1)]). *)
Definition zip_entries (character_id : string) (processed_images : list bytes)
    : list (string * bytes) :=
  imap (fun i (img_bytes : bytes) =>
          ((character_id ++ "_expr" ++ pad2 (S i) ++ ".png")%string, img_bytes))
       processed_images.

(** The return of both endpoints: [character_id] is
    [request.character.character_id], [None] when [request.character] is
    [None] ([AttributeError], turned into a 500). *)
Definition respond (env : generate_env) (character_id : option string)
    (return_type : string) (processed_images : list bytes) : generate_response :=
  if String.eqb return_type "base64_list" then
    let base64_images := map (b64encode env) processed_images in
    ImagesJson base64_images
      ("Successfully generated " ++ pretty (length base64_images) ++ " images")
  else
    match character_id with
    | None => GenerateError 500
    | Some id =>
      ZipFile (zip_entries id processed_images)
              ("attachment; filename=standing_set_" ++ id ++ ".zip")
    end.

(** [generate_images_simple] (main.py 1391-1536). *)
Definition generate_images_simple (env : generate_env) (request : simple_generate_request)
    : generate_response :=
  if negb (credentials env) then GenerateError 500 else
  let character_id := option_map sc_character_id (character_field request) in
  if String.eqb (mode request) "emo" then
    match emo_character_field request with
    | None => GenerateError 422
    | Some emo =>
      match generate_emo_with_vertex env emo with
      | None => GenerateError 500
      | Some images => respond env character_id (return_type request) images
      end
    end
  else if String.eqb (mode request) "fantasy" then
    match fantasy_character_field request with
    | None => GenerateError 422
    | Some fantasy =>
      match generate_fantasy_with_vertex env fantasy with
      | None => GenerateError 500
      | Some images => respond env character_id (return_type request) images
      end
    end
  else
    match character_field request with
    | None => GenerateError 422
    | Some c =>
      match generate_images_with_vertex_simple env c with
      | None => GenerateError 500
      | Some images =>
        respond env character_id (return_type request) (remove_green_backgrounds env images)
      end
    end.

(** [generate_images] (main.py 1538-1611). *)
Definition generate_images (env : generate_env) (request : generate_request)
    : generate_response :=
  if negb (credentials env) then GenerateError 500 else
  match generate_images_with_vertex env (g_character request) with
  | None => GenerateError 500
  | Some images =>
    respond env (Some (c_character_id (g_character request))) (g_return_type request)
      (remove_green_backgrounds env images)
  end.

End GenerateEndpoint.

(* ================================================================== *)
(** ** [generate_images_with_vertex] and its prompt (main.py 765-871,
    1037-1105) *)

Module Vertex.
Import Json GenerateEndpoint.

Definition newline : string := String.String (Ascii.ascii_of_nat 10) String.EmptyString.

(** [getattr(v, name)] for the names the prompt reads ([age_appearance],
    [accessories], [keywords], ...).  The fields of a [Character] are
    [Dict[str, Any]]: a dict's attributes are its methods ([get], [items],
    [keys], ...), none of these names, so the access raises
    [AttributeError] and [hasattr] is [False]; the same holds for every
    other value JSON decodes to. *)
Definition py_getattr (v : json) (name : string) : option json := None.

Definition py_hasattr (v : json) (name : string) : bool :=
  match py_getattr v name with Some _ => true | None => false end.

(** [getattr(v, name, default)]. *)
Definition py_getattr_default (v : json) (name : string) (default : json) : json :=
  match py_getattr v name with Some a => a | None => default end.

(** [sep.join(v)]: an iterable of strings; any other item raises
    [TypeError]. *)
Definition py_join (sep : string) (v : json) : option string :=
  items ← py_iter v;
  strs ← mapM (fun x => match x with JStr s => Some s | _ => None end) items;
  Some (String.concat sep strs).

(** [", ".join(getattr(v, name, [])) if hasattr(v, name) and
    getattr(v, name, None) else "なし"] (lines 1040-1047). *)
Definition joined_or_none (v : json) (name : string) : option string :=
  if py_hasattr v name && truthy (py_getattr_default v name JNull)
  then py_join ", " (py_getattr_default v name (JList []))
  else Some "なし".

(** The f-string of [create_base_prompt_without_expression] (lines
    1049-1103), its replacement fields as arguments. *)
Definition base_prompt_template
    (age_appearance height_cm build hair_color hair_length hair_bangs
     hair_style hair_accessories eyes_color eyes_shape eyelashes eyebrows
     mouth face_marks outfit_style outfit_top outfit_bottom outfit_accessories
     outfit_shoes keywords role
     : string) : string :=
  "【目的】" ++ newline ++
  "同一キャラクターのラノベ風立ち絵を1枚生成する。" ++ newline ++
  "この画像は指定された表情以外の要素を完全に固定し、画面内には必ず単一のキャラクターのみを描写する。" ++ newline ++
  newline ++
  "【重要】背景は均一なクロマキーグリーン (pure chroma key green background, RGB(0,255,0), #00FF00)。" ++ newline ++
  "キャラクターの輪郭線は背景から完全に独立し、グリーンのにじみや反射は一切なし。" ++ newline ++
  "Clean, sharp edge separation between character and green screen. No green color spill, fringing or halo around character." ++ newline ++
  "Bright, well-lit character with high-key lighting to prevent dark/underexposed results." ++ newline ++
  "Ensure character is bright and clearly visible with good contrast against green background." ++ newline ++
  "質感テクスチャや落ち影は一切入れない。全身が頭からつま先までフレーム内に完全に収まること。" ++ newline ++
  newline ++
  "【色調（数値を使わない指定）】" ++ newline ++
  "overall color grading: bright pale tones, light grayish tones, soft muted pastel tones." ++ newline ++
  "airy and bright atmosphere, emotional pastel look with good visibility." ++ newline ++
  "no vivid or highly saturated colors, but maintain sufficient brightness." ++ newline ++
  "medium-contrast tonal range for clear visibility, avoid crushed blacks and maintain bright whites." ++ newline ++
  "Ensure overall bright exposure (high-key lighting) to prevent dark or muddy results." ++ newline ++
  newline ++
  "【線（輪郭）】" ++ newline ++
  "outline color: clear, desaturated cool gray; not pure black but visible against green." ++ newline ++
  "outer contour lines: bold and clean to create sharp silhouette against green background." ++ newline ++
  "inner facial/detail lines: finer and lighter gray." ++ newline ++
  "consistent, clean, sharp lines with no fuzzy edges; no sketchy strokes or messy hatching." ++ newline ++
  "Ensure crisp, well-defined edges for clean chromakey extraction." ++ newline ++
  newline ++
  "【ライティング】" ++ newline ++
  "soft, diffused frontal key light." ++ newline ++
  "gentle ambient light with a cool tint." ++ newline ++
  "shadows should be light grayish, never pure black." ++ newline ++
  "very thin cool rim light for subtle depth." ++ newline ++
  "overall gentle, low-contrast illumination." ++ newline ++
  newline ++
  "【キャラクター固定仕様（全画像共通・厳守）】" ++ newline ++
  "年齢感: " ++ age_appearance ++ newline ++
  "身長: " ++ height_cm ++ "cm前後 / 体格: " ++ build ++ newline ++
  "髪: " ++ hair_color ++ ", " ++ hair_length ++ ", 前髪: " ++ hair_bangs ++ ", スタイル: " ++ hair_style ++ ", アクセ: " ++ hair_accessories ++ newline ++
  "顔: 目色 " ++ eyes_color ++ ", 目形 " ++ eyes_shape ++ ", まつ毛 " ++ eyelashes ++ ", 眉 " ++ eyebrows ++ ", 口 " ++ mouth ++ ", 特徴 " ++ face_marks ++ newline ++
  "服装: " ++ outfit_style ++ " / 上 " ++ outfit_top ++ " / 下 " ++ outfit_bottom ++ " / 小物 " ++ outfit_accessories ++ " / 靴 " ++ outfit_shoes ++ newline ++
  "性格キーワード: " ++ keywords ++ " / 役割: " ++ role ++ newline ++
  newline ++
  "【構図・フレーミング（全画像共通・厳守）】" ++ newline ++
  "ショット: 全身。頭から足先まで切れずにフレーム内に収める。左右にわずかな余白を取り、中央に配置。" ++ newline ++
  "カメラ: 正面、俯瞰なし、50mm相当の自然なパース。レンズ歪みなし。被写界深度は深く、全身にフォーカス。" ++ newline ++
  "ポーズ: 直立、肩の力みなし、両腕は体側、指先は自然。足元まで見える。足の向きは正面〜やや内振り程度。" ++ newline ++
  "背景: 完全に均一な純粋グリーンスクリーン (RGB: 0, 255, 0 / #00FF00)。" ++ newline ++
  "輪郭線とグリーン背景の境界を明確に分離。エッジにグリーンのにじみなし。" ++ newline ++
  "no texture, no vignette, no gradient, no floor shadow, no green spill on character edges." ++ newline ++
  newline ++
  "【禁止（全画像）】" ++ newline ++
  "背景小物、武器、他キャラ、文字、透かし（watermark）、粒子ノイズ、紙テクスチャ、床影・床反射、過度な光沢、強コントラスト、切れフレーミング。" ++ newline ++
  newline ++
  "【出力ルール】" ++ newline ++
  "- この画像は単一の全身立ち絵1枚。フレーム内の人物は一人のみ。" ++ newline ++
  "- 差分は「顔の表情のみ」（この後ろに続く表情指定に従う）。髪・衣装・体格・ポーズ・画角・線の太さは完全固定。" ++ newline ++
  "- 追加のキャラクター、複数人、反射像、鏡像の描写は禁止。".

(** [create_base_prompt_without_expression] (lines 1037-1105); [py_format]
    is [str] on the interpolated values.  The replacement fields are
    evaluated left to right. *)
Definition create_base_prompt_without_expression (py_format : json -> string)
    (character : character) : option string :=
  let basic := JDict (c_basic character) in
  let hair := JDict (c_hair character) in
  let face := JDict (c_face character) in
  let outfit := JDict (c_outfit character) in
  let persona := JDict (c_persona character) in
  hair_accessories ← joined_or_none hair "accessories";
  face_marks ← joined_or_none face "marks";
  outfit_accessories ← joined_or_none outfit "accessories";
  age_appearance ← py_getattr basic "age_appearance";
  height_cm ← py_getattr basic "height_cm";
  build ← py_getattr basic "build";
  hair_color ← py_getattr hair "color";
  hair_length ← py_getattr hair "length";
  hair_bangs ← py_getattr hair "bangs";
  hair_style ← py_getattr hair "style";
  eyes_color ← py_getattr face "eyes_color";
  eyes_shape ← py_getattr face "eyes_shape";
  eyelashes ← py_getattr face "eyelashes";
  eyebrows ← py_getattr face "eyebrows";
  mouth ← py_getattr face "mouth";
  outfit_style ← py_getattr outfit "style";
  outfit_top ← py_getattr outfit "top";
  outfit_bottom ← py_getattr outfit "bottom";
  outfit_shoes ← py_getattr outfit "shoes";
  keywords_v ← py_getattr persona "keywords";
  keywords ← py_join ", " keywords_v;
  role ← py_getattr persona "role";
  Some (base_prompt_template
          (py_format age_appearance) (py_format height_cm) (py_format build)
          (py_format hair_color) (py_format hair_length) (py_format hair_bangs)
          (py_format hair_style) hair_accessories
          (py_format eyes_color) (py_format eyes_shape) (py_format eyelashes)
          (py_format eyebrows) (py_format mouth) face_marks
          (py_format outfit_style) (py_format outfit_top) (py_format outfit_bottom)
          outfit_accessories (py_format outfit_shoes) keywords (py_format role)).

(** The expressions of lines 779-794 (the same as lines 669-684). *)
Definition expressions : list (string * string) :=
  [("微笑み", (newline ++ "【各画像の表情差分（顔のみ変更）】" ++ newline ++
     "#1: 微笑み — 口角をわずかに上げた優しい笑顔" ++ newline ++
     "    口: 軽いスマイル / 眉: やや下げ / 目: やや細め")%string);
   ("ニュートラル", (newline ++ "【各画像の表情差分（顔のみ変更）】" ++ newline ++
     "#2: ニュートラル — 穏やかな基準表情" ++ newline ++
     "    口: 自然 / 眉: 標準 / 目: 標準")%string);
   ("困り顔", (newline ++ "【各画像の表情差分（顔のみ変更）】" ++ newline ++
     "#3: 困り顔 — 申し訳なさそうに眉が寄る" ++ newline ++
     "    口: への字（小） / 眉: 内側に寄る / 目: やや細め")%string);
   ("むすっ", (newline ++ "【各画像の表情差分（顔のみ変更）】" ++ newline ++
     "#4: むすっ — 拗ねたように正面を見据える" ++ newline ++
     "    口: 真一文字 / 眉: 下がる / 目: 標準")%string)].

(** [generate_images_with_vertex] (lines 765-871): [None] is the
    [HTTPException] (500) it raises.  [refresh_ok] is the outcome of
    [credentials.refresh]; after the prompt the body is the one of
    [generate_images_with_vertex_simple] ([Batch.generate_images]). *)
Definition generate_images_with_vertex (credentials refresh_ok : bool)
    (py_format : json -> string) (call : Batch.service) (completion_order : list nat)
    (character : character) : option (list bytes) :=
  if negb credentials then None else
  if negb refresh_ok then None else
  base_prompt ← create_base_prompt_without_expression py_format character;
  Batch.generate_images call base_prompt (c_seed character) expressions completion_order.

(** The f-string of [create_simple_prompt_without_expression] (lines
    950-1005), its replacement fields as arguments. *)
Definition simple_prompt_template
    (age body_type eyes hair outfit accessories other_features : string) : string :=
  "【目的】" ++ newline ++
  "同一キャラクターのラノベ風立ち絵を1枚生成する。" ++ newline ++
  "この画像は指定された表情以外の要素を完全に固定し、画面内には必ず単一のキャラクターのみを描写する。" ++ newline ++
  newline ++
  "【重要】背景は均一なクロマキーグリーン (pure chroma key green background, RGB(0,255,0), #00FF00)。" ++ newline ++
  "キャラクターの輪郭線は背景から完全に独立し、グリーンのにじみや反射は一切なし。" ++ newline ++
  "Clean, sharp edge separation between character and green screen. No green color spill, fringing or halo around character." ++ newline ++
  "Bright, well-lit character with high-key lighting to prevent dark/underexposed results." ++ newline ++
  "Ensure character is bright and clearly visible with good contrast against green background." ++ newline ++
  "質感テクスチャや落ち影は一切入れない。全身が頭からつま先までフレーム内に完全に収まること。" ++ newline ++
  newline ++
  "【色調（数値を使わない指定）】" ++ newline ++
  "overall color grading: bright pale tones, light grayish tones, soft muted pastel tones." ++ newline ++
  "airy and bright atmosphere, emotional pastel look with good visibility." ++ newline ++
  "no vivid or highly saturated colors, but maintain sufficient brightness." ++ newline ++
  "medium-contrast tonal range for clear visibility, avoid crushed blacks and maintain bright whites." ++ newline ++
  "Ensure overall bright exposure (high-key lighting) to prevent dark or muddy results." ++ newline ++
  newline ++
  "【線（輪郭）】" ++ newline ++
  "outline color: clear, desaturated cool gray; not pure black but visible against green." ++ newline ++
  "outer contour lines: bold and clean to create sharp silhouette against green background." ++ newline ++
  "inner facial/detail lines: finer and lighter gray." ++ newline ++
  "consistent, clean, sharp lines with no fuzzy edges; no sketchy strokes or messy hatching." ++ newline ++
  "Ensure crisp, well-defined edges for clean chromakey extraction." ++ newline ++
  newline ++
  "【ライティング】" ++ newline ++
  "soft, diffused frontal key light." ++ newline ++
  "gentle ambient light with a cool tint." ++ newline ++
  "shadows should be light grayish, never pure black." ++ newline ++
  "very thin cool rim light for subtle depth." ++ newline ++
  "overall gentle, low-contrast illumination." ++ newline ++
  newline ++
  "【キャラクター固定仕様（全画像共通・厳守）】" ++ newline ++
  "年齢: " ++ age ++ newline ++
  "体型: " ++ body_type ++ newline ++
  "目: " ++ eyes ++ newline ++
  "髪: " ++ hair ++ newline ++
  "服装: " ++ outfit ++ newline ++
  "アクセサリー: " ++ accessories ++ newline ++
  "その他の特徴: " ++ other_features ++ newline ++
  newline ++
  "【構図・フレーミング（全画像共通・厳守）】" ++ newline ++
  "ショット: 全身。頭から足先まで切れずにフレーム内に収める。左右にわずかな余白を取り、中央に配置。" ++ newline ++
  "カメラ: 正面、俯瞰なし、50mm相当の自然なパース。レンズ歪みなし。被写界深度は深く、全身にフォーカス。" ++ newline ++
  "ポーズ: 直立、肩の力みなし、両腕は体側、指先は自然。足元まで見える。足の向きは正面〜やや内振り程度。" ++ newline ++
  "背景: 完全に均一な純粋グリーンスクリーン (RGB: 0, 255, 0 / #00FF00)。" ++ newline ++
  "輪郭線とグリーン背景の境界を明確に分離。エッジにグリーンのにじみなし。" ++ newline ++
  "no texture, no vignette, no gradient, no floor shadow, no green spill on character edges." ++ newline ++
  newline ++
  "【禁止（全画像）】" ++ newline ++
  "背景小物、武器、他キャラ、文字、透かし（watermark）、粒子ノイズ、紙テクスチャ、床影・床反射、過度な光沢、強コントラスト、切れフレーミング。" ++ newline ++
  newline ++
  "【出力ルール】" ++ newline ++
  "- この画像は単一の全身立ち絵1枚。フレーム内の人物は一人のみ。" ++ newline ++
  "- 差分は「顔の表情のみ」（この後ろに続く表情指定に従う）。髪・衣装・体格・ポーズ・画角・線の太さは完全固定。" ++ newline ++
  "- 追加のキャラクター、複数人、反射像、鏡像の描写は禁止。".

(** [getattr(character, name, '') or "なし"] on an [Optional[str]] field. *)
Definition or_none (v : option string) : string :=
  match v with
  | Some s => if String.eqb s "" then "なし" else s
  | None => "なし"
  end.

(** [create_simple_prompt_without_expression] (lines 944-1007). *)
Definition create_simple_prompt_without_expression (character : simple_character) : string :=
  simple_prompt_template (sc_age character) (sc_body_type character) (sc_eyes character)
    (sc_hair character) (sc_outfit character) (or_none (sc_accessories character))
    (or_none (sc_other_features character)).

(** [generate_images_with_vertex_simple] (lines 651-763): [None] is the
    [HTTPException] (500) it raises; [refresh_ok] is the outcome of
    [credentials.refresh]. *)
Definition generate_images_with_vertex_simple (credentials refresh_ok : bool)
    (call : Batch.service) (completion_order : list nat) (character : simple_character)
    : option (list bytes) :=
  if negb credentials then None else
  if negb refresh_ok then None else
  Batch.generate_images call (create_simple_prompt_without_expression character)
    (sc_seed character) expressions completion_order.

End Vertex.

(* ================================================================== *)
(** ** Proofs: depth segmentation *)

Module DepthProofs.
Import Depth.

#[local] Instance Qle_Transitive : Transitive Qle := Qle_trans.
#[local] Instance Qle_Total : Total Qle.
Proof. intros x y. destruct (Qlt_le_dec x y); [left; lra | right; lra]. Qed.

Lemma Qlt_bool_iff x y : Qlt_bool x y = true <-> x < y.
Proof.
  unfold Qlt_bool. rewrite negb_true_iff.
  split; intros H.
  - apply Qnot_le_lt. intros H'. apply Qle_bool_iff in H'. congruence.
  - destruct (Qle_bool y x) eqn:E; [|reflexivity].
    apply Qle_bool_iff in E. lra.
Qed.

Lemma Qlt_bool_false x y : Qlt_bool x y = false <-> y <= x.
Proof.
  unfold Qlt_bool. rewrite negb_false_iff. apply Qle_bool_iff.
Qed.

Lemma np_sort_sorted l : StronglySorted Qle (np_sort l).
Proof. unfold np_sort. apply StronglySorted_merge_sort; typeclasses eauto. Qed.

Lemma sorted_nth_le (s : list Q) i j :
  StronglySorted Qle s -> (i <= j)%nat -> (j < length s)%nat ->
  nth i s 0 <= nth j s 0.
Proof.
  induction s as [|x s IH] in i, j |- *; intros Hs Hij Hj; simpl in *; [lia|].
  inversion Hs as [|? ? Hs' Hx]; subst.
  destruct i as [|i], j as [|j]; simpl.
  - apply Qle_refl.
  - rewrite Forall_forall in Hx. apply Hx, list_elem_of_In, nth_In. lia.
  - lia.
  - apply IH; auto; lia.
Qed.

Lemma lerp_lo a b t : a <= b -> 0 <= t -> a <= lerp a b t.
Proof. unfold lerp. intros. nra. Qed.

Lemma lerp_hi a b t : a <= b -> t <= 1 -> lerp a b t <= b.
Proof. unfold lerp. intros. nra. Qed.

Lemma lerp_mono a b t1 t2 : a <= b -> t1 <= t2 -> lerp a b t1 <= lerp a b t2.
Proof. unfold lerp. intros. nra. Qed.

(** The interpolating branch: the floor of the virtual index and its
    successor are valid positions, and the value lies between them. *)
Lemma percentile_branch (s : list Q) (vi : Q) :
  StronglySorted Qle s -> 0 <= vi -> vi < inject_Z (Z.of_nat (length s) - 1) ->
  let f := Z.to_nat (Qfloor vi) in
  (S f < length s)%nat /\
  (0 <= Qfloor vi)%Z /\
  nth f s 0 <= lerp (nth f s 0) (nth (S f) s 0) (vi - inject_Z (Qfloor vi)) /\
  lerp (nth f s 0) (nth (S f) s 0) (vi - inject_Z (Qfloor vi)) <= nth (S f) s 0.
Proof.
  intros Hs H0 Hlt f.
  pose proof (Qfloor_le vi) as Hfl. pose proof (Qlt_floor vi) as Hfu.
  assert (Hf0 : (0 <= Qfloor vi)%Z).
  { pose proof (Qfloor_resp_le 0 vi H0) as H. exact H. }
  assert (Hfn : (Qfloor vi < Z.of_nat (length s) - 1)%Z).
  { rewrite Zlt_Qlt. lra. }
  assert (HS : (S f < length s)%nat) by (unfold f; lia).
  assert (Hab : nth f s 0 <= nth (S f) s 0) by (apply sorted_nth_le; auto).
  rewrite inject_Z_plus in Hfu. unfold inject_Z at 2 in Hfu.
  repeat split; auto.
  - apply lerp_lo; auto. lra.
  - apply lerp_hi; auto. lra.
Qed.

Lemma sorted_last_max (s : list Q) i :
  StronglySorted Qle s -> (i < length s)%nat -> nth i s 0 <= nth (length s - 1) s 0.
Proof. intros. apply sorted_nth_le; auto; lia. Qed.

(** [np.percentile] is monotone in the requested percentile. *)
Lemma percentile_sorted_mono (s : list Q) q1 q2 :
  StronglySorted Qle s -> s <> [] -> 0 <= q1 -> q1 <= q2 ->
  percentile_sorted s q1 <= percentile_sorted s q2.
Proof.
  intros Hs Hne H1 H12. unfold percentile_sorted.
  assert (Hlen : (1 <= length s)%nat) by (destruct s; [congruence | simpl; lia]).
  set (M := inject_Z (Z.of_nat (length s) - 1)).
  assert (HM : 0 <= M).
  { unfold M. change 0 with (inject_Z 0). rewrite <- Zle_Qle. lia. }
  set (v1 := M * (q1 / 100)). set (v2 := M * (q2 / 100)).
  assert (Hv1 : 0 <= v1).
  { unfold v1. apply Qmult_le_0_compat; [assumption|].
    apply Qmult_le_0_compat; [assumption | discriminate]. }
  assert (Hv12 : v1 <= v2).
  { unfold v1, v2. rewrite !(Qmult_comm M). apply Qmult_le_compat_r; [|assumption].
    apply Qmult_le_compat_r; [assumption | discriminate]. }
  destruct (Qle_bool M v2) eqn:E2; destruct (Qle_bool M v1) eqn:E1.
  - apply Qle_refl.
  - apply Qle_bool_iff in E2.
    assert (Hv1M : v1 < M) by (apply Qnot_le_lt; intros H; apply Qle_bool_iff in H; congruence).
    destruct (percentile_branch s v1 Hs Hv1 Hv1M) as (HS & _ & _ & Hhi).
    eapply Qle_trans; [exact Hhi|]. apply sorted_last_max; auto.
  - apply Qle_bool_iff in E1.
    assert (Hv2M : v2 < M) by (apply Qnot_le_lt; intros H; apply Qle_bool_iff in H; congruence).
    lra.
  - assert (Hv1M : v1 < M) by (apply Qnot_le_lt; intros H; apply Qle_bool_iff in H; congruence).
    assert (Hv2M : v2 < M) by (apply Qnot_le_lt; intros H; apply Qle_bool_iff in H; congruence).
    destruct (percentile_branch s v1 Hs Hv1 Hv1M) as (HS1 & Hf1 & Hlo1 & Hhi1).
    destruct (percentile_branch s v2 Hs (Qle_trans _ _ _ Hv1 Hv12) Hv2M)
      as (HS2 & Hf2 & Hlo2 & Hhi2).
    pose proof (Qfloor_resp_le v1 v2 Hv12) as Hff.
    destruct (Z.eq_dec (Qfloor v1) (Qfloor v2)) as [Heq|Hneq].
    + rewrite Heq. apply lerp_mono.
      * apply sorted_nth_le; auto.
      * lra.
    + eapply Qle_trans; [exact Hhi1|]. eapply Qle_trans; [|exact Hlo2].
      apply sorted_nth_le; auto; lia.
Qed.

Lemma np_percentile_30_70 (l : list Q) p30 p70 :
  np_percentile l 30 = Some p30 -> np_percentile l 70 = Some p70 -> p30 <= p70.
Proof.
  unfold np_percentile. pose proof (np_sort_sorted l) as Hs.
  destruct (np_sort l) as [|x r] eqn:E; [discriminate|].
  intros [= <-] [= <-]. apply percentile_sorted_mono; auto; [discriminate | lra].
Qed.

Lemma np_sort_nonempty (l : list Q) : l <> [] -> np_sort l <> [].
Proof.
  intros Hl Hs. apply Hl. apply Permutation_nil.
  unfold np_sort in Hs. rewrite <- Hs. apply (merge_sort_Permutation Qle).
Qed.

Lemma np_percentile_some (l : list Q) q :
  l <> [] -> np_percentile l q = Some (percentile_sorted (np_sort l) q).
Proof.
  intros Hl. unfold np_percentile. pose proof (np_sort_nonempty l Hl).
  destruct (np_sort l); [congruence | reflexivity].
Qed.

Lemma masks_some (g : grid) :
  concat g <> [] ->
  masks g = Some (foreground_mask g (percentile_sorted (np_sort (concat g)) 30),
                  midground_mask g (percentile_sorted (np_sort (concat g)) 30)
                                   (percentile_sorted (np_sort (concat g)) 70),
                  background_mask g (percentile_sorted (np_sort (concat g)) 70)).
Proof.
  intros H. unfold masks. rewrite !np_percentile_some by exact H. reflexivity.
Qed.

Lemma cell_map {A B} (f : A -> B) (m : list (list A)) r c :
  cell (map (map f) m) r c = f <$> cell m r c.
Proof.
  unfold cell. change (map (map f) m) with (fmap (map f) m).
  rewrite list_lookup_fmap. destruct (m !! r) as [row|]; simpl; [|reflexivity].
  change (map f row) with (f <$> row). apply list_lookup_fmap.
Qed.

(** The three band tests are a partition of the values when [p30 <= p70]. *)
Lemma bands_partition (v p30 p70 : Q) : p30 <= p70 ->
  let a := Qlt_bool v p30 in
  let b := negb (Qlt_bool v p30) && Qlt_bool v p70 in
  let d := negb (Qlt_bool v p70) in
  a && b = false /\ a && d = false /\ b && d = false /\ a || b || d = true.
Proof.
  intros Hp a b d. subst a b d.
  destruct (Qlt_bool v p30) eqn:E1, (Qlt_bool v p70) eqn:E2; simpl; auto.
  apply Qlt_bool_iff in E1. apply Qlt_bool_false in E2. lra.
Qed.

(** C1 *)
(** Claim C1: for every non-empty depth grid the foreground
    ([value < p30]), midground ([p30 <= value < p70]) and background
    ([value >= p70]) masks are defined, and at every cell of the grid
    exactly one of them holds: they are pairwise disjoint and cover the
    grid. *)
Theorem depth_bands_partition (g : grid) :
  concat g <> [] ->
  exists fg mg bg, masks g = Some (fg, mg, bg) /\
  forall r c v, cell g r c = Some v ->
    exists a b d, cell fg r c = Some a /\ cell mg r c = Some b /\ cell bg r c = Some d /\
      a && b = false /\ a && d = false /\ b && d = false /\ a || b || d = true.
Proof.
  intros Hne. rewrite masks_some by exact Hne.
  do 3 eexists. split; [reflexivity|].
  intros r c v Hv.
  unfold foreground_mask, midground_mask, background_mask.
  rewrite !cell_map, Hv. simpl.
  do 3 eexists. split; [reflexivity|]. split; [reflexivity|]. split; [reflexivity|].
  apply bands_partition.
  pose proof (np_sort_sorted (concat g)) as Hs.
  apply percentile_sorted_mono; auto.
  - apply np_sort_nonempty; exact Hne.
  - lra.
  - lra.
Qed.

Lemma depth_bands_partition_witness :
  concat [[1; 2; 3]; [4; 5; 6]] <> [] /\
  exists fg mg bg, masks [[1; 2; 3]; [4; 5; 6]] = Some (fg, mg, bg) /\
  forall r c v, cell [[1; 2; 3]; [4; 5; 6]] r c = Some v ->
    exists a b d, cell fg r c = Some a /\ cell mg r c = Some b /\ cell bg r c = Some d /\
      a && b = false /\ a && d = false /\ b && d = false /\ a || b || d = true.
Proof.
  split; [discriminate|]. apply depth_bands_partition. discriminate.
Defined.

Lemma analyze_core_some (g : grid) :
  concat g <> [] ->
  exists r, analyze_core g = Some r /\
  has_person (subject_detection_of r) =
    has_person_of (foreground_ratio g
                     (foreground_mask g (percentile_sorted (np_sort (concat g)) 30))).
Proof.
  intros Hne. unfold analyze_core.
  destruct (concat g) as [|x l] eqn:E; [congruence|].
  rewrite masks_some by (rewrite E; discriminate). rewrite E.
  simpl. eexists. split; reflexivity.
Qed.

(** C7 *)
(** Claim C7: on every non-empty depth grid, the [has_person] flag of the
    analysis is true exactly when the foreground ratio lies strictly
    between 0.05 and 0.5; a ratio of exactly 0.05 or exactly 0.5 gives
    false. *)
Theorem has_subject_iff (g : grid) :
  concat g <> [] ->
  exists fg mg bg, masks g = Some (fg, mg, bg) /\
    (has_person (subject_detection_of (analyze_depth_array g)) = true <->
       5 # 100 < foreground_ratio g fg /\ foreground_ratio g fg < 1 # 2) /\
    (foreground_ratio g fg == 5 # 100 \/ foreground_ratio g fg == 1 # 2 ->
       has_person (subject_detection_of (analyze_depth_array g)) = false).
Proof.
  intros Hne. destruct (analyze_core_some g Hne) as (res & Hcore & Hp).
  rewrite masks_some by exact Hne. do 3 eexists. split; [reflexivity|].
  unfold analyze_depth_array. rewrite Hcore, Hp. unfold has_person_of.
  split.
  - rewrite andb_true_iff, !Qlt_bool_iff. tauto.
  - intros Hb. apply andb_false_iff.
    destruct Hb as [Hb|Hb]; [left | right]; apply Qlt_bool_false; rewrite Hb; apply Qle_refl.
Qed.

Lemma has_subject_iff_witness :
  concat [[0; 1; 1; 1; 1; 1; 1; 1; 1; 1]; [1; 1; 1; 1; 1; 1; 1; 1; 1; 1]] <> [] /\
  exists fg mg bg,
    masks [[0; 1; 1; 1; 1; 1; 1; 1; 1; 1]; [1; 1; 1; 1; 1; 1; 1; 1; 1; 1]] = Some (fg, mg, bg) /\
    (has_person (subject_detection_of (analyze_depth_array
       [[0; 1; 1; 1; 1; 1; 1; 1; 1; 1]; [1; 1; 1; 1; 1; 1; 1; 1; 1; 1]])) = true <->
       5 # 100 < foreground_ratio [[0; 1; 1; 1; 1; 1; 1; 1; 1; 1]; [1; 1; 1; 1; 1; 1; 1; 1; 1; 1]] fg /\
       foreground_ratio [[0; 1; 1; 1; 1; 1; 1; 1; 1; 1]; [1; 1; 1; 1; 1; 1; 1; 1; 1; 1]] fg < 1 # 2) /\
    (foreground_ratio [[0; 1; 1; 1; 1; 1; 1; 1; 1; 1]; [1; 1; 1; 1; 1; 1; 1; 1; 1; 1]] fg == 5 # 100 \/
     foreground_ratio [[0; 1; 1; 1; 1; 1; 1; 1; 1; 1]; [1; 1; 1; 1; 1; 1; 1; 1; 1; 1]] fg == 1 # 2 ->
       has_person (subject_detection_of (analyze_depth_array
         [[0; 1; 1; 1; 1; 1; 1; 1; 1; 1]; [1; 1; 1; 1; 1; 1; 1; 1; 1; 1]])) = false).
Proof.
  split; [discriminate|]. apply has_subject_iff. discriminate.
Defined.

(** The boundary 0.05 on a concrete grid: one foreground cell out of 20. *)
Example has_subject_boundary_005 :
  foreground_ratio [[0; 1; 1; 1; 1; 1; 1; 1; 1; 1]; [1; 1; 1; 1; 1; 1; 1; 1; 1; 1]]
    (foreground_mask [[0; 1; 1; 1; 1; 1; 1; 1; 1; 1]; [1; 1; 1; 1; 1; 1; 1; 1; 1; 1]] 1) == 5 # 100 /\
  has_person (subject_detection_of (analyze_depth_array
    [[0; 1; 1; 1; 1; 1; 1; 1; 1; 1]; [1; 1; 1; 1; 1; 1; 1; 1; 1; 1]])) = false.
Proof. split; vm_compute; reflexivity. Qed.

(** C8 *)
(** Claim C8: when the external depth estimator raises (the HF request
    when [use_local] is false, the local model when it is true), the
    pipeline returns the default result, whose layers are background
    (depth 90, strong, scale 1.3, blur 3, opacity 0.8, speed 30),
    midground (50, medium, 1.1, 1, 0.9, 25) and foreground (10, weak, 1.0,
    0, 1.0, 20); the result type has no error case. *)
Theorem depth_estimator_failure_default (use_local : bool)
    (hf : option hf_response) (local : option grid) :
  (if use_local then local = None else hf = None) ->
  estimate_depth_with_depth_anything use_local hf local = get_default_depth_result /\
  map (fun l => (name l, depth l, parallax_strength l, scale l, blur l,
                 opacity l, animation_speed l))
      (layers (estimate_depth_with_depth_anything use_local hf local)) =
    [("background", 90, "strong", 13 # 10, 3, 8 # 10, 30);
     ("midground", 50, "medium", 11 # 10, 1, 9 # 10, 25);
     ("foreground", 10, "weak", 1, 0, 1, 20)].
Proof.
  intros Hfail.
  assert (E : estimate_depth_with_depth_anything use_local hf local = get_default_depth_result).
  { unfold estimate_depth_with_depth_anything.
    destruct use_local; subst; reflexivity. }
  rewrite E. split; reflexivity.
Qed.

Lemma depth_estimator_failure_default_witness :
  estimate_depth_with_depth_anything false None (Some [[1]]) = get_default_depth_result /\
  map (fun l => (name l, depth l, parallax_strength l, scale l, blur l,
                 opacity l, animation_speed l))
      (layers (estimate_depth_with_depth_anything false None (Some [[1]]))) =
    [("background", 90, "strong", 13 # 10, 3, 8 # 10, 30);
     ("midground", 50, "medium", 11 # 10, 1, 9 # 10, 25);
     ("foreground", 10, "weak", 1, 0, 1, 20)].
Proof. apply (depth_estimator_failure_default false None (Some [[1]])). reflexivity. Defined.

(** C10, counterexample: an empty grid and a zero-width image are not
    rejected with an error; the analysis returns the default result. *)
Lemma malformed_grid_not_rejected :
  analyze_depth_array [] = get_default_depth_result /\
  analyze_depth_array [[]; []] = get_default_depth_result.
Proof. split; reflexivity. Qed.

(** C10 *)
(** Claim C10 (amended): the depth segmenter never raises.  On a grid
    without cells (empty, or of zero width) numpy raises inside the
    analysis, the exception is caught and the default result is returned;
    on every grid with at least one cell the analysis itself is returned. *)
Theorem analyze_depth_array_total (g : grid) :
  (concat g = [] /\ analyze_depth_array g = get_default_depth_result) \/
  (concat g <> [] /\ exists r, analyze_core g = Some r /\ analyze_depth_array g = r).
Proof.
  destruct (concat g) as [|x l] eqn:E.
  - left. split; [reflexivity|]. unfold analyze_depth_array, analyze_core.
    rewrite E. reflexivity.
  - right. split; [discriminate|].
    assert (Hne : concat g <> []) by (rewrite E; discriminate).
    destruct (analyze_core_some g Hne) as (r & Hr & _).
    exists r. split; [exact Hr|]. unfold analyze_depth_array. rewrite Hr. reflexivity.
Qed.

End DepthProofs.

(* ================================================================== *)
(** ** Proofs: matte cleanup *)

Module MatteProofs.
Import Matte.
Local Open Scope Z_scope.

(** The loop body writes exactly [cell_update] of the buffer at [(x, y)]. *)
Lemma step_spec w h buf x y x' y' :
  step w h buf x y x' y' = set_px buf x y (cell_update buf w h x y) x' y'.
Proof.
  unfold step, cell_update.
  repeat case_match; unfold set_px; simpl in *;
    destruct ((x' =? x) && (y' =? y)) eqn:E; try congruence;
    apply andb_true_iff in E as [E1 E2]; apply Z.eqb_eq in E1, E2; subst; reflexivity.
Qed.

Lemma existsb_ext_pw {A} (f g : A -> bool) (l : list A) :
  (forall a, f a = g a) -> existsb f l = existsb g l.
Proof. intros H. induction l as [|a l IH]; simpl; [reflexivity|]. rewrite H, IH. reflexivity. Qed.

(** The neighbour scan only looks at in-range neighbours, and only at
    whether their alpha is below 255. *)
Lemma is_edge_ext (get1 get2 : buffer) w h x y :
  (forall nx ny, in_range w h nx ny = true ->
     (pa (get1 nx ny) <? 255) = (pa (get2 nx ny) <? 255)) ->
  is_edge get1 w h x y = is_edge get2 w h x y.
Proof.
  intros H. unfold is_edge. apply existsb_ext_pw. intros dx.
  apply existsb_ext_pw. intros dy.
  destruct ((dx =? 0) && (dy =? 0)); [reflexivity|].
  destruct ((0 <=? x + dx) && (x + dx <? w) && (0 <=? y + dy) && (y + dy <? h)) eqn:E;
    [|reflexivity].
  apply H. exact E.
Qed.

Lemma cell_update_ext (get1 get2 : buffer) w h x y :
  get1 x y = get2 x y ->
  (forall nx ny, in_range w h nx ny = true ->
     (pa (get1 nx ny) <? 255) = (pa (get2 nx ny) <? 255)) ->
  cell_update get1 w h x y = cell_update get2 w h x y.
Proof.
  intros Hxy Hn. unfold cell_update. rewrite Hxy, (is_edge_ext get1 get2 w h x y Hn).
  reflexivity.
Qed.

Lemma cell_update_alpha (get : buffer) w h x y :
  pa (cell_update get w h x y) = snap_alpha (pa (get x y)).
Proof. unfold cell_update, snap_alpha. repeat case_match; reflexivity. Qed.

Lemma before_irrefl x y : before x y x y = false.
Proof. unfold before. rewrite Z.ltb_irrefl, Z.eqb_refl, Z.ltb_irrefl. reflexivity. Qed.

Lemma before_succ x' y' x y :
  (x', y') <> (x, y) -> before x' y' (x + 1) y = before x' y' x y.
Proof.
  intros Hne. unfold before.
  destruct (Z.ltb_spec y' y), (Z.eqb_spec y' y), (Z.ltb_spec x' (x + 1)), (Z.ltb_spec x' x);
    simpl; try reflexivity; try lia.
  subst. assert (x' = x) by lia. subst. congruence.
Qed.

Lemma visited_view_self img x y : visited_view img x y x y = pixels img x y.
Proof. unfold visited_view. rewrite before_irrefl. reflexivity. Qed.

(** What the body computes at [(x, y)] from the live buffer is what it
    computes from [visited_view]. *)
Lemma visit_value img buf x y :
  loop_inv img buf x y -> in_range (width img) (height img) x y = true ->
  cell_update buf (width img) (height img) x y =
  cell_update (visited_view img x y) (width img) (height img) x y.
Proof.
  intros Hinv Hr. apply cell_update_ext.
  - rewrite visited_view_self. apply (Hinv x y Hr). apply before_irrefl.
  - intros nx ny Hn. destruct (Hinv nx ny Hn) as [Hb Ha].
    unfold visited_view. destruct (before nx ny x y) eqn:Eb.
    + rewrite (Hb eq_refl), cell_update_alpha, visited_view_self. reflexivity.
    + rewrite (Ha eq_refl). reflexivity.
Qed.

Lemma step_inv img buf x y :
  loop_inv img buf x y -> in_range (width img) (height img) x y = true ->
  loop_inv img (step (width img) (height img) buf x y) (x + 1) y.
Proof.
  intros Hinv Hr x' y' Hr'. rewrite !step_spec. unfold set_px.
  destruct ((x' =? x) && (y' =? y)) eqn:E.
  - apply andb_true_iff in E as [E1 E2]. apply Z.eqb_eq in E1, E2. subst x' y'.
    split.
    + intros _. apply visit_value; assumption.
    + unfold before. rewrite Z.ltb_irrefl, Z.eqb_refl.
      destruct (Z.ltb_spec x (x + 1)); [discriminate | lia].
  - rewrite before_succ.
    + apply Hinv. exact Hr'.
    + intros [= -> ->]. rewrite !Z.eqb_refl in E. discriminate.
Qed.

Lemma in_range_iff w h x y :
  in_range w h x y = true <-> 0 <= x < w /\ 0 <= y < h.
Proof.
  unfold in_range. rewrite !andb_true_iff, !Z.leb_le, !Z.ltb_lt. tauto.
Qed.

Lemma inner_loop img buf y k :
  Z.of_nat k <= width img -> 0 <= y < height img -> loop_inv img buf 0 y ->
  loop_inv img
    (fold_left (fun buf x => step (width img) (height img) buf x y)
       (map Z.of_nat (seq 0 k)) buf) (Z.of_nat k) y.
Proof.
  intros Hk Hy Hinv. induction k as [|k IH]; [exact Hinv|].
  rewrite seq_S, map_app, fold_left_app. simpl.
  rewrite Nat2Z.inj_succ, <- Z.add_1_r.
  apply step_inv.
  - apply IH. lia.
  - apply in_range_iff. lia.
Qed.

Lemma row_end img buf y :
  loop_inv img buf (width img) y -> loop_inv img buf 0 (y + 1).
Proof.
  intros Hinv x' y' Hr.
  assert (Hb : before x' y' 0 (y + 1) = before x' y' (width img) y).
  { apply in_range_iff in Hr. unfold before.
    destruct (Z.ltb_spec y' (y + 1)), (Z.ltb_spec y' y), (Z.eqb_spec y' (y + 1)),
      (Z.eqb_spec y' y), (Z.ltb_spec x' 0), (Z.ltb_spec x' (width img));
      simpl; try reflexivity; lia. }
  rewrite Hb. apply Hinv. exact Hr.
Qed.

Lemma loop_inv_empty img buf x y : width img <= 0 -> loop_inv img buf x y.
Proof. intros Hw x' y' Hr. apply in_range_iff in Hr. lia. Qed.

Lemma outer_loop img k :
  Z.of_nat k <= height img ->
  loop_inv img
    (fold_left (fun buf y =>
        fold_left (fun buf x => step (width img) (height img) buf x y)
          (range (width img)) buf)
       (map Z.of_nat (seq 0 k)) (pixels img)) 0 (Z.of_nat k).
Proof.
  intros Hk. induction k as [|k IH].
  - intros x' y' Hr. apply in_range_iff in Hr. unfold before.
    change (Z.of_nat 0) with 0. cbn [fold_left seq map].
    split; intros Hb; [|reflexivity].
    destruct (Z.ltb_spec y' 0), (Z.eqb_spec y' 0), (Z.ltb_spec x' 0); simpl in Hb;
      try discriminate; lia.
  - rewrite seq_S, map_app, fold_left_app. simpl.
    rewrite Nat2Z.inj_succ, <- Z.add_1_r.
    destruct (Z_le_gt_dec (width img) 0) as [Hw|Hw]; [apply loop_inv_empty; exact Hw|].
    apply row_end.
    pose proof (inner_loop img _ (Z.of_nat k) (Z.to_nat (width img))
                  ltac:(lia) ltac:(lia) (IH ltac:(lia))) as Hin.
    rewrite Z2Nat.id in Hin by lia. exact Hin.
Qed.

(** The in-place loop, pixel by pixel: the value at an in-range [(x, y)] is
    the body's result computed on the buffer as the loop reads it there. *)
Lemma cleanup_pass_spec img x y :
  in_range (width img) (height img) x y = true ->
  pixels (cleanup_pass img) x y =
  cell_update (visited_view img x y) (width img) (height img) x y.
Proof.
  intros Hr. pose proof Hr as Hr'. apply in_range_iff in Hr'.
  pose proof (outer_loop img (Z.to_nat (height img)) ltac:(lia)) as Hinv.
  rewrite Z2Nat.id in Hinv by lia.
  destruct (Hinv x y Hr) as [Hb _]. apply Hb.
  unfold before. destruct (Z.ltb_spec y (height img)); [reflexivity | lia].
Qed.

Lemma snap_lt_255 a : (snap_alpha a <? 255) = (a <=? 225).
Proof.
  unfold snap_alpha.
  destruct (Z.ltb_spec 0 a), (Z.ltb_spec a 255), (Z.ltb_spec a 30), (Z.ltb_spec 225 a);
    simpl; destruct (Z.leb_spec a 225); try reflexivity; try lia;
    apply Z.ltb_lt || apply Z.ltb_ge; lia.
Qed.

Lemma is_edge_visited img x y :
  is_edge (visited_view img x y) (width img) (height img) x y = edge_in_pass img x y.
Proof.
  unfold is_edge, edge_in_pass. apply existsb_ext_pw. intros dx.
  apply existsb_ext_pw. intros dy.
  destruct ((dx =? 0) && (dy =? 0)); [reflexivity|].
  case_match; [|reflexivity].
  unfold visited_view. destruct (before (x + dx) (y + dy) x y); simpl;
    [apply snap_lt_255 | reflexivity].
Qed.

(** C2, counterexample.  Left: the pixel [(1, 0)] is opaque green spill and
    its neighbour [(0, 0)] has input alpha 240, so the claim corrects its
    green; the loop has already snapped that neighbour to 255 and leaves
    the pixel alone.  Right: a green-dominant pixel of alpha 240 keeps its
    input green 200 after the snap, where the claim has the average 0. *)
Lemma cleanup_pixel_claim_fails :
  let img1 := mkImage 2 1 (fun x _ => if x =? 0 then mkPixel 10 10 10 240
                                       else mkPixel 0 200 0 255) in
  let img2 := mkImage 2 1 (fun x _ => if x =? 0 then mkPixel 0 200 0 240
                                       else mkPixel 0 0 0 0) in
  pixels (cleanup_pass img1) 1 0 = mkPixel 0 200 0 255 /\
  spec_clean_pixel img1 1 0 = mkPixel 0 0 0 255 /\
  pixels (cleanup_pass img2) 0 0 = mkPixel 0 200 0 255 /\
  spec_clean_pixel img2 0 0 = mkPixel 0 0 0 255.
Proof. vm_compute. repeat split. Qed.

(** C2 *)
(** Claim C2 (amended): at every pixel of the image, with input
    [(r, g, b, a)]: alpha 0 is left unchanged; alpha in 30..225 gets the
    red/blue average as green when green-dominant ([g > 1.2 r], [g > 1.2 b])
    and is otherwise unchanged; alpha in 1..29 becomes alpha 0 and alpha in
    226..254 becomes alpha 255, red and blue kept, green kept when not
    green-dominant (the green a green-dominant pixel of these ranges ends
    with is the defect of C4 and is left open here); alpha 255 with green spill ([g > 1.5 r], [g > 1.5 b],
    [g > 150]) gets the average as green exactly when some in-range
    8-neighbour visited earlier in row-major order has input alpha at most
    225 or some neighbour visited later has input alpha below 255, and is
    otherwise unchanged. *)
Theorem cleanup_pixel_behaviour img x y :
  in_range (width img) (height img) x y = true ->
  let p := pixels img x y in
  let r := pr p in let g := pg p in let b := pb p in let a := pa p in
  let out := pixels (cleanup_pass img) x y in
  (a = 0 -> out = p) /\
  (30 <= a <= 225 ->
     out = if green_dominant r g b then mkPixel r (avg_rb r b) b a else p) /\
  (0 < a < 30 ->
     pr out = r /\ pb out = b /\ pa out = 0 /\
     (green_dominant r g b = false -> pg out = g)) /\
  (225 < a < 255 ->
     pr out = r /\ pb out = b /\ pa out = 255 /\
     (green_dominant r g b = false -> pg out = g)) /\
  (a = 255 ->
     out = if green_spill r g b && edge_in_pass img x y
           then mkPixel r (avg_rb r b) b 255 else p).
Proof.
  intros Hr p r g b a out. subst out.
  rewrite cleanup_pass_spec by exact Hr. unfold cell_update.
  rewrite !visited_view_self, is_edge_visited. fold p r g b a.
  clearbody p r g b a.
  refine (conj _ (conj _ (conj _ (conj _ _)))); intros Ha.
  - destruct (Z.ltb_spec 0 a), (Z.eqb_spec a 255); simpl; try lia; reflexivity.
  - destruct (Z.ltb_spec 0 a), (Z.ltb_spec a 255), (Z.ltb_spec a 30), (Z.ltb_spec 225 a);
      simpl; try lia; reflexivity.
  - destruct (Z.ltb_spec 0 a), (Z.ltb_spec a 255), (Z.ltb_spec a 30); simpl; try lia;
      repeat split; reflexivity.
  - destruct (Z.ltb_spec 0 a), (Z.ltb_spec a 255), (Z.ltb_spec a 30), (Z.ltb_spec 225 a);
      simpl; try lia; repeat split; reflexivity.
  - subst a. reflexivity.
Qed.

Lemma cleanup_pixel_behaviour_witness :
  in_range 2 1 1 0 = true /\
  let img := mkImage 2 1 (fun x _ => if x =? 0 then mkPixel 10 10 10 240
                                      else mkPixel 0 200 0 255) in
  let p := pixels img 1 0 in
  let r := pr p in let g := pg p in let b := pb p in let a := pa p in
  let out := pixels (cleanup_pass img) 1 0 in
  (a = 0 -> out = p) /\
  (30 <= a <= 225 ->
     out = if green_dominant r g b then mkPixel r (avg_rb r b) b a else p) /\
  (0 < a < 30 ->
     pr out = r /\ pb out = b /\ pa out = 0 /\
     (green_dominant r g b = false -> pg out = g)) /\
  (225 < a < 255 ->
     pr out = r /\ pb out = b /\ pa out = 255 /\
     (green_dominant r g b = false -> pg out = g)) /\
  (a = 255 ->
     out = if green_spill r g b && edge_in_pass img 1 0
           then mkPixel r (avg_rb r b) b 255 else p).
Proof.
  split; [reflexivity|].
  apply (cleanup_pixel_behaviour
           (mkImage 2 1 (fun x _ => if x =? 0 then mkPixel 10 10 10 240
                                    else mkPixel 0 200 0 255)) 1 0).
  reflexivity.
Defined.

(** C3, counterexample: on the image of [cleanup_pixel_claim_fails] the loop
    and the snapshot reference pass differ at [(1, 0)]. *)
Lemma cleanup_pass_order_dependent :
  let img1 := mkImage 2 1 (fun x _ => if x =? 0 then mkPixel 10 10 10 240
                                       else mkPixel 0 200 0 255) in
  pixels (cleanup_pass img1) 1 0 = mkPixel 0 200 0 255 /\
  pixels (snapshot_cleanup_pass img1) 1 0 = mkPixel 0 0 0 255.
Proof. vm_compute. split; reflexivity. Qed.

(** C3 *)
(** Claim C3 (amended): the loop reads the neighbours' alpha from the
    buffer it is rewriting, in row-major order, so a neighbour visited
    earlier is seen with its snapped alpha; its output equals the snapshot
    reference pass on every image in which no alpha lies strictly between
    225 and 255 (the only alphas whose snap changes the neighbour test). *)
Theorem cleanup_pass_matches_snapshot img :
  (forall x y, in_range (width img) (height img) x y = true ->
     ~ (225 < pa (pixels img x y) < 255)) ->
  forall x y, in_range (width img) (height img) x y = true ->
    pixels (cleanup_pass img) x y = pixels (snapshot_cleanup_pass img) x y.
Proof.
  intros Hno x y Hr. rewrite cleanup_pass_spec by exact Hr.
  simpl. rewrite Hr. apply cell_update_ext.
  - apply visited_view_self.
  - intros nx ny Hn. unfold visited_view.
    destruct (before nx ny x y); simpl; [|reflexivity].
    rewrite snap_lt_255. specialize (Hno nx ny Hn).
    destruct (Z.leb_spec (pa (pixels img nx ny)) 225),
      (Z.ltb_spec (pa (pixels img nx ny)) 255); try reflexivity; lia.
Qed.

Lemma cleanup_pass_matches_snapshot_witness :
  (forall x y, in_range 3 3 x y = true -> ~ (225 < pa (mkPixel 0 255 0 255) < 255)) /\
  pixels (cleanup_pass (mkImage 3 3 (fun _ _ => mkPixel 0 255 0 255))) 1 1 =
  pixels (snapshot_cleanup_pass (mkImage 3 3 (fun _ _ => mkPixel 0 255 0 255))) 1 1.
Proof.
  split; [intros x y _; simpl; lia|].
  apply (cleanup_pass_matches_snapshot (mkImage 3 3 (fun _ _ => mkPixel 0 255 0 255))).
  - intros x y _. simpl. lia.
  - reflexivity.
Defined.

(** C4: running the loop on its own output changes a pixel.  The pixel
    [(0, 0)], green-dominant with alpha 240, is snapped to alpha 255 but
    keeps its green 200 (line 903 writes the [g] read before line 896);
    on the second run it is opaque green spill next to a transparent pixel
    and its green becomes 0. *)
Theorem cleanup_pass_not_idempotent :
  let img2 := mkImage 2 1 (fun x _ => if x =? 0 then mkPixel 0 200 0 240
                                       else mkPixel 0 0 0 0) in
  pixels (cleanup_pass img2) 0 0 = mkPixel 0 200 0 255 /\
  pixels (cleanup_pass (cleanup_pass img2)) 0 0 = mkPixel 0 0 0 255.
Proof. vm_compute. split; reflexivity. Qed.

(** The concrete scenario of the spec holds: on a 3x3 all-opaque green
    image the centre pixel is unchanged by one and by two runs. *)
Example cleanup_opaque_green_interior :
  let img3 := mkImage 3 3 (fun _ _ => mkPixel 0 255 0 255) in
  pixels (cleanup_pass img3) 1 1 = mkPixel 0 255 0 255 /\
  pixels (cleanup_pass (cleanup_pass img3)) 1 1 = mkPixel 0 255 0 255.
Proof. vm_compute. split; reflexivity. Qed.

(** C9, counterexample: the enhanced step fails and the fallback is the
    external basic remover, which (as a segmentation model may) keeps one
    of two identical green pixels and clears the other.  No per-pixel
    threshold pass over the original image does that, whatever its
    channel test. *)
Lemma matte_fallback_not_threshold_pass :
  let img := mkImage 2 1 (fun _ _ => mkPixel 0 255 0 255) in
  let basic := mkImage 2 1 (fun x _ => if x =? 0 then mkPixel 0 255 0 0
                                        else mkPixel 0 255 0 255) in
  let out := remove_green_background (fun _ => None) (fun _ => Some basic)
               Some Some img in
  pixels img 0 0 = pixels img 1 0 /\
  pixels out 0 0 <> pixels out 1 0 /\
  ~ (exists transparent : Z -> Z -> Z -> bool,
       pixels out 0 0 = pixels (threshold_pass transparent img) 0 0 /\
       pixels out 1 0 = pixels (threshold_pass transparent img) 1 0).
Proof.
  intros img basic out. subst out img basic. simpl.
  split; [reflexivity|]. split; [discriminate|].
  intros [transparent [H0 H1]].
  destruct (transparent 0 255 0); discriminate.
Qed.

(** C9 *)
(** Claim C9 (amended): when the enhanced matte step fails (the external
    matting call raises, or decoding or encoding the cleaned image raises),
    the cleaner returns the output of the external remover's basic mode on
    the original bytes, and the original bytes if that raises too; in no
    case does it raise. *)
Theorem remove_green_background_fallback {B : Type}
    (remove_matting remove_basic : B -> option B)
    (decode : B -> option image) (encode : image -> option B) (image_bytes : B) :
  (remove_matting image_bytes = None \/
   exists removed, remove_matting image_bytes = Some removed /\
     (decode removed = None \/
      exists img, decode removed = Some img /\ encode (cleanup_pass img) = None)) ->
  remove_green_background remove_matting remove_basic decode encode image_bytes =
    match remove_basic image_bytes with
    | Some out => out
    | None => image_bytes
    end.
Proof.
  intros Hfail. unfold remove_green_background.
  destruct Hfail as [Hm | (removed & Hm & [Hd | (img & Hd & He)])];
    rewrite Hm; simpl; try rewrite Hd; simpl; try rewrite He; reflexivity.
Qed.

Lemma remove_green_background_fallback_witness :
  (@None nat = None \/
   exists removed : nat, @None nat = Some removed /\
     ((fun _ : nat => @None image) removed = None \/
      exists img, (fun _ : nat => @None image) removed = Some img /\
                  (fun _ : image => @None nat) (cleanup_pass img) = None)) /\
  remove_green_background (fun _ => None) (fun _ => None)
    (fun _ : nat => @None image) (fun _ => None) 7%nat = 7%nat.
Proof.
  split; [left; reflexivity|].
  apply (remove_green_background_fallback (fun _ => None) (fun _ => None)
           (fun _ : nat => @None image) (fun _ => None) 7%nat).
  left. reflexivity.
Defined.

End MatteProofs.

(* ================================================================== *)
(** ** Proofs: expression batch *)

Module BatchProofs.
Import Batch.
Local Open Scope nat_scope.

Lemma list_to_map_zip_seq_lookup (rest : list (string * string)) (s k : nat) :
  (list_to_map (zip (seq s (length rest)) rest) : gmap nat (string * string)) !! k =
  if decide (s <= k) then rest !! (k - s) else None.
Proof.
  induction rest as [|e rest IH] in s |- *; simpl.
  - rewrite lookup_empty. case_decide; [|reflexivity].
    symmetry. apply lookup_nil.
  - rewrite lookup_insert. rewrite IH.
    destruct (decide (s = k)) as [->|Hne].
    + rewrite decide_True by lia. rewrite Nat.sub_diag. reflexivity.
    + destruct (decide (S s <= k)), (decide (s <= k)); try lia; [|reflexivity].
      replace (k - s) with (S (k - S s)) by lia. reflexivity.
Qed.

Lemma future_to_expression_lookup (rest : list (string * string)) (i : nat) :
  future_to_expression rest !! S i = rest !! i.
Proof.
  unfold future_to_expression. rewrite list_to_map_zip_seq_lookup.
  rewrite decide_True by lia. f_equal. lia.
Qed.

Lemma collect_none call base_prompt seed base_image rest (ord : list nat) :
  fold_left (collect_step call base_prompt seed base_image rest) ord None = None.
Proof. induction ord; simpl; auto. Qed.

Lemma collect_fail call base_prompt seed base_image rest (ord : list nat) idx acc :
  idx ∈ ord ->
  (forall m, collect_step call base_prompt seed base_image rest (Some m) idx = None) ->
  fold_left (collect_step call base_prompt seed base_image rest) ord acc = None.
Proof.
  intros Hin Hf. induction ord as [|i ord IH] in acc, Hin |- *.
  - apply elem_of_nil in Hin. contradiction.
  - cbn [fold_left]. apply elem_of_cons in Hin as [->|Hin].
    + destruct acc as [m|].
      * rewrite Hf. apply collect_none.
      * apply collect_none.
    + apply IH. exact Hin.
Qed.

Lemma collect_success call base_prompt seed base_image rest (ord : list nat)
    (F : nat -> bytes) m :
  (forall idx, idx ∈ ord -> exists exp_data,
     future_to_expression rest !! idx = Some exp_data /\
     snd (generate_expression call base_prompt seed base_image exp_data) = Some (F idx)) ->
  exists m', fold_left (collect_step call base_prompt seed base_image rest) ord (Some m) = Some m' /\
    forall k, m' !! k = if decide (k ∈ ord) then Some (F k) else m !! k.
Proof.
  intros HF. induction ord as [|i ord IH] in m, HF |- *.
  - exists m. split; [reflexivity|]. intros k. rewrite decide_False; [reflexivity|].
    apply not_elem_of_nil.
  - assert (Hi : collect_step call base_prompt seed base_image rest (Some m) i =
                 Some (<[i := F i]> m)).
    { destruct (HF i (list_elem_of_here _ _)) as (e & He & Hr).
      unfold collect_step. simpl. rewrite He. simpl. rewrite Hr. reflexivity. }
    cbn [fold_left]. rewrite Hi.
    destruct (IH (<[i := F i]> m)) as (m' & Hm' & Hk).
    { intros idx Hidx. apply HF. apply list_elem_of_further. exact Hidx. }
    exists m'. split; [exact Hm'|]. intros k. rewrite Hk.
    destruct (decide (k ∈ ord)) as [Ho|Ho].
    + rewrite decide_True; [reflexivity|]. apply list_elem_of_further. exact Ho.
    + rewrite lookup_insert. destruct (decide (i = k)) as [->|Hne].
      * rewrite decide_True; [reflexivity|]. apply list_elem_of_here.
      * rewrite decide_False; [reflexivity|].
        intros Hin. apply elem_of_cons in Hin as [->|Hin]; contradiction.
Qed.

Lemma map_fmap_list {A B} (f : A -> B) (l : list A) : map f l = f <$> l.
Proof. induction l as [|x l IH]; simpl; [reflexivity|]. rewrite IH. reflexivity. Qed.

Lemma seq_sorted (s n : nat) : Sorted Nat.le (seq s n).
Proof.
  induction n as [|n IH] in s |- *; simpl; [constructor|].
  constructor; [apply IH|]. destruct n; simpl; constructor. lia.
Qed.

(** The keys of a map whose domain is [1..n], sorted, are [1..n]. *)
Lemma sorted_keys (m : gmap nat bytes) (n : nat) :
  (forall k, is_Some (m !! k) <-> k ∈ seq 1 n) ->
  merge_sort Nat.le (map fst (map_to_list m)) = seq 1 n.
Proof.
  intros Hdom. apply (Sorted_unique Nat.le).
  - apply Sorted_merge_sort. typeclasses eauto.
  - apply seq_sorted.
  - rewrite merge_sort_Permutation. rewrite map_fmap_list.
    apply NoDup_Permutation; [apply NoDup_fst_map_to_list|apply NoDup_seq|].
    intros k. rewrite <- Hdom. rewrite list_elem_of_fmap. split.
    + intros ([k' v] & -> & Hin). apply elem_of_map_to_list' in Hin.
      simpl in *. rewrite Hin. eexists; reflexivity.
    + intros [v Hv]. exists (k, v). split; [reflexivity|].
      apply elem_of_map_to_list'. exact Hv.
Qed.

Lemma map_seq_list {A} (g : nat -> A) (l : list A) (s : nat) :
  (forall i x, l !! i = Some x -> g (s + i) = x) ->
  map g (seq s (length l)) = l.
Proof.
  induction l as [|x l IH] in s |- *; intros Hg; simpl; [reflexivity|].
  f_equal.
  - specialize (Hg 0 x eq_refl). rewrite Nat.add_0_r in Hg. exact Hg.
  - apply IH. intros i y Hy. replace (S s + i) with (s + S i) by lia.
    apply Hg. exact Hy.
Qed.

(** Whatever the completion order, the batch is the base image followed by
    the outcome of each expression, in task-index order. *)
Lemma generate_images_outcomes (call : service) (base_prompt : string) (seed : Z)
    (first : string * string) (rest : list (string * string))
    (ord : list nat) (base : bytes) (imgs : list bytes) :
  ord ≡ₚ seq 1 (length rest) ->
  call (text_request base_prompt seed (snd first)) = Some base ->
  Forall2 (fun exp img =>
    snd (generate_expression call base_prompt seed base exp) = Some img) rest imgs ->
  generate_images call base_prompt seed (first :: rest) ord = Some (base :: imgs).
Proof.
  intros Hord Hbase Himgs. destruct first as [fname fblock].
  pose proof (Forall2_length _ _ _ Himgs) as Hlen.
  unfold generate_images. simpl in Hbase. rewrite Hbase. simpl.
  unfold collect_results.
  destruct (collect_success call base_prompt seed base rest ord
              (fun idx => imgs !!! pred idx) ∅) as (m' & Hm' & Hk).
  { intros idx Hidx. rewrite Hord in Hidx. apply elem_of_seq in Hidx.
    destruct idx as [|i]; [lia|].
    destruct (lookup_lt_is_Some_2 rest i) as [e He]; [lia|].
    destruct (lookup_lt_is_Some_2 imgs i) as [img Himg]; [lia|].
    exists e. split; [rewrite future_to_expression_lookup; exact He|].
    simpl. rewrite (list_lookup_total_correct _ _ _ Himg).
    exact (Forall2_lookup_lr _ _ _ _ _ _ Himgs He Himg). }
  rewrite Hm'. simpl. f_equal. f_equal.
  assert (Hdom : forall k, is_Some (m' !! k) <-> k ∈ seq 1 (length rest)).
  { intros k. rewrite Hk, <- Hord. case_decide as Hin.
    - split; [intros _; exact Hin|intros _; eexists; reflexivity].
    - rewrite lookup_empty. split; [intros [v Hv]; discriminate|intros H; contradiction]. }
  rewrite (sorted_keys m' (length rest) Hdom), Hlen.
  apply map_seq_list. intros i x Hx.
  apply lookup_total_correct. rewrite Hk.
  rewrite decide_True.
  - simpl. rewrite (list_lookup_total_correct _ _ _ Hx). reflexivity.
  - rewrite Hord. apply elem_of_seq.
    apply lookup_lt_Some in Hx. lia.
Qed.

(** C5: for a batch of N expressions, whatever order the concurrent calls
    complete in (any permutation [ord] of the task indices [1..N-1]), when
    the base call and the edit calls succeed, the runner returns exactly N
    images: first the base image, produced by a call without base-image
    reference, then the image of each expression's edit call, which
    references the base image, in task-index order. *)
Theorem batch_images_in_task_order (call : service) (base_prompt : string) (seed : Z)
    (first : string * string) (rest : list (string * string))
    (ord : list nat) (base : bytes) (imgs : list bytes) :
  ord ≡ₚ seq 1 (length rest) ->
  call (text_request base_prompt seed (snd first)) = Some base ->
  Forall2 (fun exp img =>
    call (edit_request base_prompt seed base (snd exp)) = Some img) rest imgs ->
  generate_images call base_prompt seed (first :: rest) ord = Some (base :: imgs) /\
  length (base :: imgs) = length (first :: rest) /\
  req_base_image (text_request base_prompt seed (snd first)) = None /\
  Forall (fun exp =>
    fst (generate_expression call base_prompt seed base exp) =
      [edit_request base_prompt seed base (snd exp)] /\
    req_base_image (edit_request base_prompt seed base (snd exp)) = Some base) rest.
Proof.
  intros Hord Hbase Hedit.
  assert (Hout : Forall2 (fun exp img =>
    snd (generate_expression call base_prompt seed base exp) = Some img) rest imgs).
  { eapply Forall2_impl; [exact Hedit|]. intros [n b] img H. simpl in *.
    rewrite H. reflexivity. }
  split; [apply generate_images_outcomes; assumption|].
  split; [simpl; rewrite (Forall2_length _ _ _ Hedit); reflexivity|].
  split; [reflexivity|].
  clear Hord Hout. induction Hedit as [|[n b] img rest' imgs' H _ IH]; constructor.
  - simpl in *. rewrite H. split; reflexivity.
  - exact IH.
Qed.

Lemma batch_images_in_task_order_witness :
  [2%nat; 1%nat] ≡ₚ seq 1 2 /\
  generate_images (fun r => Some (match req_base_image r with None => [Byte.x00] | Some _ => [Byte.x01] end))
    "p" 0%Z [("a", "x"); ("b", "y"); ("c", "z")] [2%nat; 1%nat] =
    Some [[Byte.x00]; [Byte.x01]; [Byte.x01]].
Proof.
  split; [apply Permutation_swap|].
  apply (batch_images_in_task_order
           (fun r => Some (match req_base_image r with None => [Byte.x00] | Some _ => [Byte.x01] end))
           "p" 0%Z ("a", "x") [("b", "y"); ("c", "z")] [2%nat; 1%nat] [Byte.x00]
           [[Byte.x01]; [Byte.x01]]).
  - apply Permutation_swap.
  - reflexivity.
  - repeat constructor.
Defined.

(** C6: when the edit call of an expression fails, the runner makes
    exactly one more call, a fresh generation without base image whose
    prompt is the expression's own text prompt [base_prompt\nblock], and
    the expression's outcome is that call's; if it fails too, the whole
    batch fails ([None]: the [HTTPException]) and no list is returned,
    whatever the completion order. *)
Theorem edit_failure_single_fallback (call : service) (base_prompt : string) (seed : Z)
    (first : string * string) (rest : list (string * string))
    (ord : list nat) (base : bytes) (i : nat) (exp : string * string) :
  ord ≡ₚ seq 1 (length rest) ->
  rest !! i = Some exp ->
  call (edit_request base_prompt seed base (snd exp)) = None ->
  generate_expression call base_prompt seed base exp =
    ([edit_request base_prompt seed base (snd exp); text_request base_prompt seed (snd exp)],
     call (text_request base_prompt seed (snd exp))) /\
  req_base_image (text_request base_prompt seed (snd exp)) = None /\
  req_prompt (text_request base_prompt seed (snd exp)) = text_prompt base_prompt (snd exp) /\
  (call (text_request base_prompt seed (snd first)) = Some base ->
   call (text_request base_prompt seed (snd exp)) = None ->
   generate_images call base_prompt seed (first :: rest) ord = None).
Proof.
  intros Hord Hi Hedit.
  assert (Hgen : generate_expression call base_prompt seed base exp =
    ([edit_request base_prompt seed base (snd exp); text_request base_prompt seed (snd exp)],
     call (text_request base_prompt seed (snd exp)))).
  { destruct exp as [n b]. simpl in *. rewrite Hedit. reflexivity. }
  split; [exact Hgen|]. split; [reflexivity|]. split; [reflexivity|].
  intros Hbase Hfb. destruct first as [fname fblock].
  unfold generate_images. simpl in Hbase. rewrite Hbase. simpl.
  unfold collect_results.
  rewrite (collect_fail call base_prompt seed base rest ord (S i)).
  - reflexivity.
  - rewrite Hord. apply elem_of_seq. apply lookup_lt_Some in Hi. lia.
  - intros m. unfold collect_step. simpl.
    rewrite future_to_expression_lookup, Hi. simpl.
    rewrite Hgen. simpl. rewrite Hfb. reflexivity.
Qed.

Lemma edit_failure_single_fallback_witness :
  generate_images
    (fun r => if String.eqb (req_prompt r) (text_prompt "p" "x") then Some [Byte.x00] else None)
    "p" 0%Z [("a", "x"); ("b", "y")] [1%nat] = None.
Proof.
  apply (edit_failure_single_fallback
           (fun r => if String.eqb (req_prompt r) (text_prompt "p" "x") then Some [Byte.x00] else None)
           "p" 0%Z ("a", "x") [("b", "y")]
           [1%nat] [Byte.x00] 0 ("b", "y")); vm_compute; reflexivity.
Defined.

End BatchProofs.

(* ================================================================== *)
(** ** Proofs: parallax configuration *)

Module ParallaxProofs.
Import Json Parallax.

Local Arguments round64 x : simpl never.

(** Exhibit the value of a closed computation [e = Some v], evaluated with
    the bytecode machine. *)
Ltac exists_computed e :=
  let v := eval vm_compute in e in
  lazymatch v with Some ?x => exists x end.

Ltac solve_computed_config :=
  lazymatch goal with |- exists cfg, ?e = Some cfg /\ _ => exists_computed e end;
  split; [vm_compute; reflexivity|split; vm_compute; reflexivity].

(** The step of the fold in [generate_parallax_config]. *)
Local Abbreviation config_step :=
  (fun (acc : option (list layer_config)) (layer : json) =>
     cfgs ← acc; lc ← layer_config_of layer; Some (cfgs ++ [lc])%list).

Lemma config_fold_none (layers : list json) :
  fold_left config_step layers None = None.
Proof. induction layers; simpl; auto. Qed.

Lemma config_fold (layers : list json) (acc : list layer_config) :
  fold_left config_step layers (Some acc) =
  (lcs ← mapM layer_config_of layers; Some (acc ++ lcs)%list).
Proof.
  induction layers as [|l ls IH] in acc |- *; simpl.
  - rewrite app_nil_r. reflexivity.
  - destruct (layer_config_of l) as [lc|]; simpl.
    + rewrite IH.
      destruct (mapM layer_config_of ls); simpl; [|reflexivity].
      rewrite <- app_assoc. reflexivity.
    + apply config_fold_none.
Qed.

Lemma generate_parallax_config_list depth_layers layers :
  dict_lookup depth_layers "layers" = Some (JList layers) ->
  generate_parallax_config depth_layers =
  (lcs ← mapM layer_config_of layers; Some (mkParallaxConfig lcs "time-based" 1)).
Proof.
  intros H. unfold generate_parallax_config. simpl. rewrite H. simpl.
  rewrite config_fold. destruct (mapM layer_config_of layers); reflexivity.
Qed.

(** What one layer of the configuration is made of, read off
    [layer_config_of]: the layer's name and depth, and the kinds of its
    animations. *)
Lemma layer_config_of_cases (l : json) (lc : layer_config) :
  layer_config_of l = Some lc ->
  exists name d mv,
    get_item l "name" = Some name /\ get_item l "depth" = Some d /\
    get_item l "movement" = Some mv /\
    lc_id lc = name /\ lc_depth lc = d /\
    map anim_type (animations lc) =
      ((if movement_in mv ["horizontal"; "both"] then ["translateX"] else []) ++
       (if movement_in mv ["vertical"; "both"] then ["translateY"] else []) ++
       ["scale"])%list.
Proof.
  unfold layer_config_of. intros H.
  destruct (get_item l "name") as [name|]; simpl in H; [|discriminate].
  destruct (get_item l "depth") as [d|]; simpl in H; [|discriminate].
  destruct (as_number d) as [q|]; simpl in H; [|discriminate].
  destruct (round64 (q / 100)) as [df|]; simpl in H; [|discriminate].
  destruct (get_item l "movement") as [mv|]; simpl in H; [|discriminate].
  exists name, d, mv. do 3 (split; [reflexivity|]).
  destruct (movement_in mv ["horizontal"; "both"]), (movement_in mv ["vertical"; "both"]);
    simpl in H |- *;
    repeat match type of H with
    | context [animation_speed_of ?l] =>
        destruct (animation_speed_of l); simpl in H; try discriminate
    | context [Qeq_bool ?a ?b] => destruct (Qeq_bool a b); simpl in H; try discriminate
    | context [float_recip ?x] => destruct (float_recip x); simpl in H; try discriminate
    | context [match round64 ?x with _ => _ end] =>
        destruct (round64 x); simpl in H; try discriminate
    end;
    injection H as <-; simpl; repeat split.
Qed.

(** X1: the configuration has one entry per input layer, in the input
    order, whose id and depth are the layer's [name] and [depth]; its
    animation type is ["time-based"] and its global speed 1. *)
Theorem parallax_config_follows_layers (depth_layers : list (string * json))
    (layers : list json) (cfg : parallax_config) :
  dict_lookup depth_layers "layers" = Some (JList layers) ->
  generate_parallax_config depth_layers = Some cfg ->
  animation_type cfg = "time-based" /\ global_speed cfg = 1 /\
  Forall2 (fun l lc => get_item l "name" = Some (lc_id lc) /\
                       get_item l "depth" = Some (lc_depth lc))
          layers (config_layers cfg).
Proof.
  intros Hl Hcfg. rewrite (generate_parallax_config_list _ _ Hl) in Hcfg.
  destruct (mapM layer_config_of layers) as [lcs|] eqn:E; simpl in Hcfg; [|discriminate].
  injection Hcfg as <-. simpl. split; [reflexivity|]. split; [reflexivity|].
  apply mapM_Some_1 in E. eapply Forall2_impl; [exact E|].
  intros l lc Hlc.
  destruct (layer_config_of_cases l lc Hlc) as (name & d & mv & Hn & Hd & _ & -> & -> & _).
  split; assumption.
Qed.

Lemma parallax_config_follows_layers_witness :
  exists cfg, generate_parallax_config get_default_depth_layers = Some cfg /\
  animation_type cfg = "time-based" /\ global_speed cfg = 1 /\
  Forall2 (fun l lc => get_item l "name" = Some (lc_id lc) /\
                       get_item l "depth" = Some (lc_depth lc))
    (match dict_lookup get_default_depth_layers "layers" with
     | Some (JList layers) => layers | _ => [] end)
    (config_layers cfg).
Proof.
  exists_computed (generate_parallax_config get_default_depth_layers).
  split; [vm_compute; reflexivity|].
  apply (parallax_config_follows_layers get_default_depth_layers);
    [reflexivity|vm_compute; reflexivity].
Defined.

(** X3: a dict without a ["layers"] key gives a configuration with no
    layers, not an error. *)
Theorem parallax_config_without_layers (depth_layers : list (string * json)) :
  dict_lookup depth_layers "layers" = None ->
  generate_parallax_config depth_layers = Some (mkParallaxConfig [] "time-based" 1).
Proof.
  intros H. unfold generate_parallax_config. simpl. rewrite H. reflexivity.
Qed.

Lemma parallax_config_without_layers_witness :
  generate_parallax_config [("subject_detection", JDict [])] =
    Some (mkParallaxConfig [] "time-based" 1).
Proof. apply parallax_config_without_layers. reflexivity. Defined.

(** X4: the animations of a layer follow its [movement]: ["horizontal"]
    gives a horizontal translation then the scale animation, ["vertical"] a
    vertical translation then the scale, ["both"] both translations then
    the scale; any other value (another string, a wrong case, a
    non-string) gives the scale animation alone. *)
Theorem layer_animation_kinds (l : json) (lc : layer_config) (mv : json) :
  get_item l "movement" = Some mv ->
  layer_config_of l = Some lc ->
  (mv = JStr "horizontal" -> map anim_type (animations lc) = ["translateX"; "scale"]) /\
  (mv = JStr "vertical" -> map anim_type (animations lc) = ["translateY"; "scale"]) /\
  (mv = JStr "both" ->
     map anim_type (animations lc) = ["translateX"; "translateY"; "scale"]) /\
  ((forall s, mv = JStr s -> s <> "horizontal" /\ s <> "vertical" /\ s <> "both") ->
     map anim_type (animations lc) = ["scale"]).
Proof.
  intros Hmv Hlc.
  destruct (layer_config_of_cases l lc Hlc) as (name & d & mv' & _ & _ & Hmv' & _ & _ & ->).
  rewrite Hmv in Hmv'. injection Hmv' as <-.
  split; [intros ->; reflexivity|].
  split; [intros ->; reflexivity|].
  split; [intros ->; reflexivity|].
  intros Hother. destruct mv as [| | |str| |]; simpl; try reflexivity.
  destruct (Hother str eq_refl) as (H1 & H2 & H3).
  rewrite <- (String.eqb_neq str) in H1, H2, H3. rewrite H1, H2, H3. reflexivity.
Qed.

Lemma layer_animation_kinds_witness :
  let l := JDict [("name", JStr "fg"); ("depth", JNum 10);
                  ("movement", JStr "Horizontal"); ("animation_speed", JNum 20)] in
  exists lc, layer_config_of l = Some lc /\ map anim_type (animations lc) = ["scale"].
Proof.
  intros l. exists_computed (layer_config_of l). split; [vm_compute; reflexivity|].
  apply (layer_animation_kinds l _ (JStr "Horizontal")); [reflexivity|reflexivity|].
  intros s Hs. injection Hs as <-. repeat split; discriminate.
Defined.

Lemma analyze_core_layers (g : Depth.grid) (r : Depth.depth_result) :
  Depth.analyze_core g = Some r ->
  exists c, Depth.layers r = [
      {| Depth.name := "background"; Depth.depth := 85;
         Depth.content := Some "Far background elements";
         Depth.parallax_strength := "strong"; Depth.movement := "horizontal";
         Depth.scale := 13 # 10; Depth.blur := 25 # 10; Depth.opacity := 85 # 100;
         Depth.animation_speed := 35 |};
      {| Depth.name := "midground"; Depth.depth := 50;
         Depth.content := Some "Middle distance elements";
         Depth.parallax_strength := "medium"; Depth.movement := "both";
         Depth.scale := 115 # 100; Depth.blur := 1; Depth.opacity := 92 # 100;
         Depth.animation_speed := 28 |};
      {| Depth.name := "foreground"; Depth.depth := 15;
         Depth.content := Some c;
         Depth.parallax_strength := "weak"; Depth.movement := "horizontal";
         Depth.scale := 1; Depth.blur := 0; Depth.opacity := 1;
         Depth.animation_speed := 22 |} ].
Proof.
  unfold Depth.analyze_core.
  destruct (Depth.np_min _); simpl; [|discriminate].
  destruct (Depth.np_max _); simpl; [|discriminate].
  destruct (Depth.np_mean _); simpl; [|discriminate].
  destruct (Depth.masks g) as [[[fg mg] bg]|]; simpl; [|discriminate].
  intros H. injection H as <-. eexists. reflexivity.
Qed.

Lemma depth_anything_layers (use_local : bool) (hf : option Depth.hf_response)
    (local : option Depth.grid) :
  let r := Depth.estimate_depth_with_depth_anything use_local hf local in
  Depth.layers r = Depth.layers Depth.get_default_depth_result \/
  exists g, Depth.analyze_core g = Some r.
Proof.
  intros r. subst r.
  assert (Harr : forall g, Depth.layers (Depth.analyze_depth_array g) =
                             Depth.layers Depth.get_default_depth_result \/
                           exists g', Depth.analyze_core g' = Some (Depth.analyze_depth_array g)).
  { intros g. unfold Depth.analyze_depth_array.
    destruct (Depth.analyze_core g) eqn:E; [right; exists g; exact E|left; reflexivity]. }
  destruct use_local; simpl.
  - destruct local as [g|]; simpl; [apply Harr|left; reflexivity].
  - destruct hf as [[code|[g|]]|]; simpl; try (left; reflexivity). apply Harr.
Qed.

Lemma depth_result_json_layers (r : Depth.depth_result) :
  dict_lookup (depth_result_json r) "layers" = Some (JList (map layer_json (Depth.layers r))).
Proof. reflexivity. Qed.

(** The parallax configuration of every depth-anything result. *)
Lemma depth_anything_parallax (use_local : bool) (hf : option Depth.hf_response)
    (local : option Depth.grid) :
  exists cfg,
    generate_parallax_config
      (depth_result_json (Depth.estimate_depth_with_depth_anything use_local hf local))
      = Some cfg /\
    map lc_id (config_layers cfg) = [JStr "background"; JStr "midground"; JStr "foreground"] /\
    map (fun lc => map anim_type (animations lc)) (config_layers cfg) =
      [["translateX"; "scale"]; ["translateX"; "translateY"; "scale"]; ["translateX"; "scale"]].
Proof.
  rewrite (generate_parallax_config_list _ _ (depth_result_json_layers _)).
  destruct (depth_anything_layers use_local hf local) as [Hl|[g Hg]].
  - rewrite Hl. solve_computed_config.
  - destruct (analyze_core_layers g _ Hg) as [c Hc]. rewrite Hc.
    solve_computed_config.
Qed.

Lemma default_layers_parallax :
  exists cfg,
    generate_parallax_config get_default_depth_layers = Some cfg /\
    map lc_id (config_layers cfg) = [JStr "background"; JStr "midground"; JStr "foreground"] /\
    map (fun lc => map anim_type (animations lc)) (config_layers cfg) =
      [["translateX"; "scale"]; ["translateX"; "translateY"; "scale"]; ["translateX"; "scale"]].
Proof. solve_computed_config. Qed.

(** X6: the parallax configuration of every result of the depth-anything
    pipeline (analysis or default, for every estimator outcome), and of
    [get_default_depth_layers], is defined: three layers [background],
    [midground], [foreground], animated horizontally, in both directions and
    horizontally, each with its scale animation. *)
Theorem depth_results_parallax_defined (use_local : bool) (hf : option Depth.hf_response)
    (local : option Depth.grid) :
  (exists cfg,
    generate_parallax_config
      (depth_result_json (Depth.estimate_depth_with_depth_anything use_local hf local))
      = Some cfg /\
    map lc_id (config_layers cfg) = [JStr "background"; JStr "midground"; JStr "foreground"] /\
    map (fun lc => map anim_type (animations lc)) (config_layers cfg) =
      [["translateX"; "scale"]; ["translateX"; "translateY"; "scale"]; ["translateX"; "scale"]]) /\
  (exists cfg,
    generate_parallax_config get_default_depth_layers = Some cfg /\
    map lc_id (config_layers cfg) = [JStr "background"; JStr "midground"; JStr "foreground"] /\
    map (fun lc => map anim_type (animations lc)) (config_layers cfg) =
      [["translateX"; "scale"]; ["translateX"; "translateY"; "scale"]; ["translateX"; "scale"]]).
Proof. split; [apply depth_anything_parallax|apply default_layers_parallax]. Qed.

End ParallaxProofs.

(* ================================================================== *)
(** ** Proofs: depth endpoint *)

Module DepthEndpointProofs.
Import Json Parallax DepthEndpoint ParallaxProofs.

(** A Hugging Face outcome whose depth map is not analysed gives the
    default result, whose [has_person] is Python's [False]. *)
Lemma depth_anything_unanalysed (resp : option Depth.hf_response) :
  (forall g, resp = Some (Depth.HfOk (Some g)) -> Depth.analyze_core g = None) ->
  Depth.estimate_depth_with_depth_anything false resp None = Depth.get_default_depth_result /\
  hf_has_numpy_bool resp = false.
Proof.
  intros H. destruct resp as [[code|[g|]]|]; try (split; reflexivity).
  specialize (H g eq_refl).
  unfold hf_has_numpy_bool, Depth.estimate_depth_with_depth_anything,
    Depth.estimate_depth_hf_api, Depth.analyze_depth_map, Depth.analyze_depth_array.
  rewrite H. split; reflexivity.
Qed.

Lemma default_result_config :
  exists cfg,
    generate_parallax_config (depth_result_json Depth.get_default_depth_result) = Some cfg /\
    config_json_ok cfg = true /\
    map lc_id (config_layers cfg) = [JStr "background"; JStr "midground"; JStr "foreground"].
Proof.
  exists_computed (generate_parallax_config (depth_result_json Depth.get_default_depth_result)).
  split; [vm_compute; reflexivity|split; vm_compute; reflexivity].
Qed.

(** X7: with credentials, an image (uploaded, or a non-empty default
    file), [use_depth_anything] set and the module importable, the answer
    follows the Hugging Face outcome.  When its depth map is analysed
    ([analyze_depth_array] succeeds), the result's [has_person] is a
    [numpy.bool_], the [JSONResponse] raises [TypeError] and the endpoint
    answers with its Gemini branch.  Otherwise it answers with the default
    Depth Anything result, its three-layer parallax configuration and the
    method ["depth_anything_v2"].  So that method never comes with an
    analysed depth map. *)
Theorem depth_endpoint_depth_anything (env : depth_env) (uploaded : option bytes)
    (image_bytes : bytes) :
  credentials env = true ->
  depth_anything_importable env = true ->
  (uploaded = Some image_bytes \/
   (uploaded = None /\ default_image env = Some image_bytes /\ image_bytes <> [])) ->
  (forall g r, hf_outcome env image_bytes = Some (Depth.HfOk (Some g)) ->
     Depth.analyze_core g = Some r ->
     estimate_depth env uploaded true = gemini_branch env image_bytes) /\
  ((forall g, hf_outcome env image_bytes = Some (Depth.HfOk (Some g)) ->
      Depth.analyze_core g = None) ->
   exists cfg,
     estimate_depth env uploaded true =
       DepthOk (depth_result_json Depth.get_default_depth_result) cfg (Some "depth_anything_v2") /\
     map lc_id (config_layers cfg) = [JStr "background"; JStr "midground"; JStr "foreground"]).
Proof.
  intros Hc Hi Himg.
  assert (Hw : estimate_depth env uploaded true = estimate_with_image env true image_bytes).
  { unfold estimate_depth. rewrite Hc. cbn [negb].
    destruct Himg as [->|(-> & Hd & Hne)]; [reflexivity|].
    rewrite Hd. destruct image_bytes as [|b bs]; [contradiction|reflexivity]. }
  rewrite Hw. unfold estimate_with_image. rewrite Hi. cbn [andb]. cbv zeta.
  split.
  - intros g r Hresp Hr. rewrite Hresp.
    assert (Hnp : hf_has_numpy_bool (Some (Depth.HfOk (Some g))) = true).
    { unfold hf_has_numpy_bool. rewrite Hr. reflexivity. }
    rewrite Hnp. cbn [negb andb].
    destruct (generate_parallax_config _); reflexivity.
  - intros Hnone.
    destruct (depth_anything_unanalysed (hf_outcome env image_bytes) Hnone) as [Hres Hnp].
    rewrite Hres, Hnp.
    destruct default_result_config as (cfg & Hcfg & Hok & Hids).
    exists cfg. split; [|exact Hids].
    rewrite Hcfg, Hok. reflexivity.
Qed.

Lemma depth_endpoint_depth_anything_witness :
  let env := mkDepthEnv true None true
               (fun _ => Some (Depth.HfOk (Some [[1; 2; 3]; [4; 5; 6]])))
               (fun _ => None) true None (fun _ => None) (fun _ => None) in
  Depth.analyze_core [[1; 2; 3]; [4; 5; 6]] <> None /\
  estimate_depth env (Some [Byte.x00]) true = gemini_branch env [Byte.x00] /\
  estimate_depth env (Some [Byte.x00]) true = DepthError 500.
Proof.
  intros env.
  assert (Hr : exists r, Depth.analyze_core [[1; 2; 3]; [4; 5; 6]] = Some r).
  { exists_computed (Depth.analyze_core [[1; 2; 3]; [4; 5; 6]]). vm_compute. reflexivity. }
  destruct Hr as [r Hr].
  assert (Hg : estimate_depth env (Some [Byte.x00]) true = gemini_branch env [Byte.x00]).
  { apply (proj1 (depth_endpoint_depth_anything env (Some [Byte.x00]) [Byte.x00]
                    eq_refl eq_refl (or_introl eq_refl)) [[1; 2; 3]; [4; 5; 6]] r);
      [reflexivity|exact Hr]. }
  split; [rewrite Hr; discriminate|].
  split; [exact Hg|]. rewrite Hg. reflexivity.
Defined.

(** X8: with credentials but no uploaded file and no non-empty default
    file, the endpoint answers with [get_default_depth_layers], its
    parallax configuration and no [method] key, whether or not Depth
    Anything was asked for. *)
Theorem depth_endpoint_without_image (env : depth_env) (use_depth_anything : bool) :
  credentials env = true ->
  (default_image env = None \/ default_image env = Some []) ->
  exists cfg,
    estimate_depth env None use_depth_anything = DepthOk get_default_depth_layers cfg None /\
    map lc_id (config_layers cfg) = [JStr "background"; JStr "midground"; JStr "foreground"].
Proof.
  intros Hc Hd.
  exists_computed (generate_parallax_config get_default_depth_layers).
  split; [|vm_compute; reflexivity].
  unfold estimate_depth. rewrite Hc. cbn [negb].
  destruct Hd as [-> | ->]; vm_compute; reflexivity.
Qed.

Lemma depth_endpoint_without_image_witness :
  let env := mkDepthEnv true (Some []) true (fun _ => None)
               (fun _ => None) true None (fun _ => None) (fun _ => None) in
  exists cfg,
    estimate_depth env None true = DepthOk get_default_depth_layers cfg None /\
    map lc_id (config_layers cfg) = [JStr "background"; JStr "midground"; JStr "foreground"].
Proof.
  intros env. apply depth_endpoint_without_image; [reflexivity|right; reflexivity].
Defined.

End DepthEndpointProofs.

(* ================================================================== *)
(** ** Proofs: extraction of Gemini's JSON answer *)

Module GeminiDepthProofs.
Import Json Parallax DepthEndpoint.

Lemma from_first_spec (c : Ascii.ascii) (l : list Ascii.ascii) :
  (from_first c l = [] /\ ~ In c l) \/
  (exists pre rest, l = (pre ++ c :: rest)%list /\ ~ In c pre /\ from_first c l = c :: rest).
Proof.
  induction l as [|x r IH]; simpl.
  - left. split; [reflexivity|tauto].
  - destruct (Ascii.eqb_spec x c) as [->|Hne].
    + right. exists [], r. simpl. tauto.
    + destruct IH as [[H1 H2]|(pre & rest & -> & Hpre & H)].
      * left. split; [exact H1|]. intros [->|Hin]; [apply Hne; reflexivity|tauto].
      * right. exists (x :: pre), rest. simpl. split; [reflexivity|split; [|exact H]].
        intros [->|Hin]; [apply Hne; reflexivity|tauto].
Qed.

Lemma from_first_app (c : Ascii.ascii) (pre rest : list Ascii.ascii) :
  ~ In c pre -> from_first c (pre ++ c :: rest)%list = c :: rest.
Proof.
  induction pre as [|x pre IH]; simpl; intros Hn.
  - rewrite Ascii.eqb_refl. reflexivity.
  - destruct (Ascii.eqb_spec x c) as [->|_]; [exfalso; tauto|].
    apply IH. tauto.
Qed.

(** A character occurring after some [c] occurs after the first [c]. *)
Lemma after_first (c : Ascii.ascii) (pre0 rest pre x : list Ascii.ascii) :
  ~ In c pre0 ->
  (pre0 ++ c :: rest)%list = (pre ++ c :: x)%list ->
  exists y, rest = (y ++ x)%list.
Proof.
  intros Hn Heq. apply app_eq_app in Heq as [k [[Hp Hk]|[Hp Hk]]].
  - destruct k as [|a k]; simpl in Hk.
    + injection Hk as ->. exists []. reflexivity.
    + injection Hk as -> _. exfalso. apply Hn. rewrite Hp.
      apply in_app_iff. right. left. reflexivity.
  - destruct k as [|a k]; simpl in Hk.
    + injection Hk as ->. exists []. reflexivity.
    + injection Hk as Ha Hr. rewrite Hr, Ha.
      exists (k ++ [a])%list. rewrite <- app_assoc. reflexivity.
Qed.

(** X9: the text taken from Gemini's answer runs from the first ['{'] of
    the content to the last ['}'], with both braces kept; there is none
    exactly when no ['}'] follows a ['{']. *)
Theorem extract_braces_first_to_last (content m : string) :
  (extract_braces content = Some m <->
   exists pre mid post,
     String.list_ascii_of_string content = (pre ++ lbrace :: mid ++ rbrace :: post)%list /\
     ~ In lbrace pre /\ ~ In rbrace post /\
     m = String.string_of_list_ascii (lbrace :: mid ++ [rbrace])%list) /\
  (extract_braces content = None <->
   ~ exists pre mid post,
     String.list_ascii_of_string content = (pre ++ lbrace :: mid ++ rbrace :: post)%list).
Proof.
  unfold extract_braces.
  set (l := String.list_ascii_of_string content).
  split; [split|split].
  - destruct (from_first_spec lbrace l) as [[-> _]|(pre & rest & Hl & Hpre & ->)];
      [discriminate|].
    destruct (from_first_spec rbrace (rev rest)) as [[-> _]|(pre' & rest' & Hr & Hpre' & ->)];
      [discriminate|].
    intros Hm. injection Hm as <-.
    exists pre, (rev rest'), (rev pre'). split; [|split; [exact Hpre|split]].
    + rewrite Hl. f_equal. f_equal.
      rewrite <- (rev_involutive rest), Hr, rev_app_distr. simpl.
      rewrite <- app_assoc. reflexivity.
    + rewrite <- in_rev. exact Hpre'.
    + reflexivity.
  - intros (pre & mid & post & Hl & Hpre & Hpost & ->).
    rewrite Hl, from_first_app by exact Hpre.
    rewrite rev_app_distr. simpl. rewrite <- app_assoc. simpl.
    rewrite from_first_app by (rewrite <- in_rev; exact Hpost).
    rewrite rev_involutive. reflexivity.
  - intros Hnone (pre & mid & post & Hl).
    destruct (from_first_spec lbrace l) as [[_ Hn]|(pre0 & rest & Hl0 & Hpre0 & Hf)].
    + apply Hn. rewrite Hl. apply in_app_iff. right. left. reflexivity.
    + rewrite Hf in Hnone.
      destruct (after_first lbrace pre0 rest pre (mid ++ rbrace :: post)%list Hpre0)
        as [y Hy]; [rewrite <- Hl0; exact Hl|].
      destruct (from_first_spec rbrace (rev rest)) as [[_ Hn]|(pre' & rest' & _ & _ & Hf')].
      * apply Hn. rewrite <- in_rev, Hy. apply in_app_iff. right.
        apply in_app_iff. right. left. reflexivity.
      * rewrite Hf' in Hnone. discriminate.
  - intros Hno.
    destruct (from_first_spec lbrace l) as [[-> _]|(pre0 & rest & Hl0 & Hpre0 & ->)];
      [reflexivity|].
    destruct (from_first_spec rbrace (rev rest)) as [[-> _]|(pre' & rest' & Hr & _ & _)];
      [reflexivity|].
    exfalso. apply Hno. exists pre0, (rev rest'), (rev pre').
    rewrite Hl0. f_equal. f_equal.
    rewrite <- (rev_involutive rest), Hr, rev_app_distr. simpl.
    rewrite <- app_assoc. reflexivity.
Qed.

(** X10: when the access token is refreshed and non-empty, the call
    answers 200 with a JSON object whose first candidate's [content] has a
    first part whose [text] holds a brace block that parses to a JSON
    object, that object is the result, whatever the other keys, parts and
    candidates of the answer are; unless its [subject_detection] is present
    and is not an object: then the logging expression raises and the
    default layers are returned. *)
Theorem gemini_depth_parsed_object (t txt m : string)
    (rkv ckv ctkv pkv kv : list (string * json))
    (parts cands : list json) (json_loads : string -> option json) :
  t <> "" ->
  dict_lookup rkv "candidates" = Some (JList (JDict ckv :: cands)) ->
  dict_lookup ckv "content" = Some (JDict ctkv) ->
  dict_lookup ctkv "parts" = Some (JList (JDict pkv :: parts)) ->
  dict_lookup pkv "text" = Some (JStr txt) ->
  extract_braces txt = Some m ->
  json_loads m = Some (JDict kv) ->
  analyze_depth_with_gemini true true (Some t) (Some (200%Z, Some (JDict rkv)))
    json_loads =
  match dict_lookup kv "subject_detection" with
  | None | Some (JDict _) => kv
  | Some _ => get_default_depth_layers
  end.
Proof.
  intros Ht Hc Hct Hp Htxt Hm Hj. unfold analyze_depth_with_gemini, gemini_depth_try.
  cbn [negb]. apply String.eqb_neq in Ht. rewrite Ht. cbn [Z.eqb Pos.eqb negb].
  simpl. rewrite Hc. simpl. rewrite Hct. simpl. rewrite Hp. simpl. rewrite Htxt. simpl.
  rewrite Hm. simpl. rewrite Hj. simpl.
  destruct (dict_lookup kv "subject_detection") as [[]|]; reflexivity.
Qed.

Lemma gemini_depth_parsed_object_witness :
  analyze_depth_with_gemini true true (Some "tok")
    (Some (200%Z, Some (JDict [
       ("candidates", JList [
          JDict [("content", JDict [("role", JStr "model");
                                    ("parts", JList [JDict [("text", JStr "ok {x} done")]])]);
                 ("finishReason", JStr "STOP")]]);
       ("usageMetadata", JDict [("totalTokenCount", JNum 12)])])))
    (fun _ => Some (JDict [("subject_detection", JStr "person")])) =
  get_default_depth_layers.
Proof.
  eapply (gemini_depth_parsed_object "tok" "ok {x} done" "{x}" _ _ _ _
           [("subject_detection", JStr "person")] [] []
           (fun _ => Some (JDict [("subject_detection", JStr "person")])));
    [discriminate|reflexivity..].
Defined.

End GeminiDepthProofs.

(* ================================================================== *)
(** ** Proofs: [request_gemini_image] *)

Module GeminiImageProofs.
Import Json GeminiImage.

(** X11: once the credentials are refreshed and the token is non-empty, an
    answer of the generation endpoint with a status other than 200 always
    raises an [HTTPException] carrying that same status, whatever its
    body. *)
Theorem gemini_http_error_status (env : gemini_env) (b64encode : bytes -> string)
    (b64decode : string -> option bytes) (prompt : string) (seed : Z)
    (base_image : option bytes) (negative_prompt : option string)
    (response_modalities : option (list string)) (token : string)
    (response : gemini_response) :
  g_credentials env = true -> g_refresh_ok env = true ->
  g_token env = Some token -> token <> "" ->
  g_post env (request_body b64encode prompt seed base_image negative_prompt
                response_modalities) = Some response ->
  status_code response <> 200%Z ->
  request_gemini_image env b64encode b64decode prompt seed base_image negative_prompt
    response_modalities = ImageHttpError (status_code response).
Proof.
  intros Hc Hr Ht Hne Hp Hs. unfold request_gemini_image.
  rewrite Hc, Hr, Ht. apply String.eqb_neq in Hne. rewrite Hne, Hp. simpl.
  apply Z.eqb_neq in Hs. rewrite Hs. simpl.
  destruct (Z.eqb_spec (status_code response) 400) as [->|_]; [reflexivity|].
  destruct (Z.eqb_spec (status_code response) 401) as [->|_]; [reflexivity|].
  destruct (Z.eqb_spec (status_code response) 403) as [->|_]; reflexivity.
Qed.

Lemma gemini_http_error_status_witness :
  request_gemini_image
    (mkGeminiEnv true true (Some "tok")
       (fun _ => Some (mkGeminiResponse 429 "quota" None)))
    (fun _ => "") (fun _ => None) "p" 7 None None None = ImageHttpError 429.
Proof.
  apply (gemini_http_error_status
           (mkGeminiEnv true true (Some "tok")
              (fun _ => Some (mkGeminiResponse 429 "quota" None)))
           (fun _ => "") (fun _ => None) "p" 7 None None None "tok"
           (mkGeminiResponse 429 "quota" None));
    [reflexivity|reflexivity|reflexivity|discriminate|reflexivity|discriminate].
Defined.

(** X12: falsy optional arguments count as absent: an empty base image
    [b""] sends a text-only request, an empty negative prompt adds nothing
    to the prompt, and an empty modality list falls back to
    [["TEXT", "IMAGE"]]; the call behaves as without them. *)
Theorem gemini_falsy_arguments (env : gemini_env) (b64encode : bytes -> string)
    (b64decode : string -> option bytes) (prompt : string) (seed : Z)
    (base_image : option bytes) (negative_prompt : option string)
    (response_modalities : option (list string)) :
  request_gemini_image env b64encode b64decode prompt seed (Some []) negative_prompt
    response_modalities =
  request_gemini_image env b64encode b64decode prompt seed None negative_prompt
    response_modalities /\
  request_gemini_image env b64encode b64decode prompt seed base_image (Some "")
    response_modalities =
  request_gemini_image env b64encode b64decode prompt seed base_image None
    response_modalities /\
  request_gemini_image env b64encode b64decode prompt seed base_image negative_prompt
    (Some []) =
  request_gemini_image env b64encode b64decode prompt seed base_image negative_prompt
    None /\
  request_body b64encode prompt seed None None None =
  JDict [("contents", JList [JDict [("role", JStr "user");
                                   ("parts", JList [JDict [("text", JStr prompt)]])]]);
         ("generationConfig",
            JDict [("temperature", JNum (3 # 10)); ("topP", JNum (85 # 100));
                   ("topK", JNum 40); ("candidateCount", JNum 1);
                   ("seed", JNum (inject_Z seed));
                   ("responseModalities", JList [JStr "TEXT"; JStr "IMAGE"])]);
         ("safetySettings",
            JList (map (fun c => JDict [("category", JStr c);
                                        ("threshold", JStr "BLOCK_ONLY_HIGH")])
                     ["HARM_CATEGORY_DANGEROUS_CONTENT"; "HARM_CATEGORY_HATE_SPEECH";
                      "HARM_CATEGORY_HARASSMENT"; "HARM_CATEGORY_SEXUALLY_EXPLICIT"]))].
Proof. repeat split. Qed.

(** A loop that finds something found it on one of the elements. *)
Lemma scan_list_found (f : json -> scan) (l : list json) (b : bytes) :
  scan_list f l = Found b -> exists x, In x l /\ f x = Found b.
Proof.
  induction l as [|x r IH]; simpl; [discriminate|].
  destruct (f x) eqn:Hf; intros H.
  - injection H as ->. exists x. tauto.
  - destruct (IH H) as (y & Hy & Hfy). exists y. tauto.
  - discriminate.
Qed.

Lemma decode_data_found (b64decode : string -> option bytes) (data : json) (b : bytes) :
  decode_data b64decode data = Found b ->
  exists s, get_item data "data" = Some (JStr s) /\ b64decode s = Some b.
Proof.
  unfold decode_data.
  destruct (get_item data "data") as [[]|]; try discriminate.
  destruct (b64decode s) eqn:Hd; [|discriminate].
  intros H. injection H as ->. eauto.
Qed.

Lemma image_mime_true (v : json) :
  image_mime v = Some true -> exists m, v = JStr m /\ String.prefix "image" m = true.
Proof. destruct v; try discriminate. simpl. intros H. injection H. eauto. Qed.

(** What a part that yields an image looks like. *)
Lemma scan_part_found (b64decode : string -> option bytes) (part : json) (b : bytes) :
  scan_part b64decode part = Found b ->
  exists data m s,
    (py_get part "inlineData" JNull = Some data \/
     py_get part "inline_data" JNull = Some data) /\
    (py_get data "mimeType" (JStr "") = Some (JStr m) \/
     py_get data "mime_type" (JStr "") = Some (JStr m)) /\
    String.prefix "image" m = true /\
    get_item data "data" = Some (JStr s) /\ b64decode s = Some b.
Proof.
  unfold scan_part.
  destruct (py_get part "inlineData" JNull) as [a|] eqn:Ha; [|discriminate].
  destruct (if truthy a then Some a else py_get part "inline_data" JNull) as [data|] eqn:Hd;
    [|discriminate].
  assert (Hdata : py_get part "inlineData" JNull = Some data \/
                  py_get part "inline_data" JNull = Some data).
  { destruct (truthy a); [left; congruence|right; exact Hd]. }
  rewrite Ha in Hdata.
  destruct (negb (truthy data)); [discriminate|].
  destruct (py_get data "mimeType" (JStr "")) as [mt|] eqn:Hmt; [|discriminate].
  destruct (image_mime mt) as [[]|] eqn:Him; [| |discriminate].
  - intros Hf. destruct (decode_data_found _ _ _ Hf) as (s & Hs & Hb).
    destruct (image_mime_true _ Him) as (m & -> & Hm).
    exists data, m, s. split; [exact Hdata|]. split; [left; exact Hmt|]. tauto.
  - destruct (py_get data "mime_type" (JStr "")) as [mt'|] eqn:Hmt'; [|discriminate].
    destruct (image_mime mt') as [[]|] eqn:Him'; try discriminate.
    intros Hf. destruct (decode_data_found _ _ _ Hf) as (s & Hs & Hb).
    destruct (image_mime_true _ Him') as (m & -> & Hm).
    exists data, m, s. split; [exact Hdata|]. split; [right; exact Hmt'|]. tauto.
Qed.

(** X13: the function only returns bytes decoded from the answer to the
    request built from its arguments: a 200 answer, one of whose
    candidates has a part whose inline data ([inlineData] or
    [inline_data]) has a MIME type ([mimeType] or [mime_type]) starting
    with ["image"], its [data] string decoding to those bytes. *)
Theorem gemini_image_from_image_part (env : gemini_env) (b64encode : bytes -> string)
    (b64decode : string -> option bytes) (prompt : string) (seed : Z)
    (base_image : option bytes) (negative_prompt : option string)
    (response_modalities : option (list string)) (image : bytes) :
  request_gemini_image env b64encode b64decode prompt seed base_image negative_prompt
    response_modalities = ImageOk image ->
  exists response result cands_v cands candidate,
    g_post env (request_body b64encode prompt seed base_image negative_prompt
                  response_modalities) = Some response /\
    status_code response = 200%Z /\
    response_json response = Some result /\
    py_get result "candidates" (JList []) = Some cands_v /\
    py_iter cands_v = Some cands /\ In candidate cands /\
    exists ct parts_v parts part data m s,
      py_get candidate "content" (JDict []) = Some ct /\
      py_get ct "parts" (JList []) = Some parts_v /\
      py_iter parts_v = Some parts /\ In part parts /\
      (py_get part "inlineData" JNull = Some data \/
       py_get part "inline_data" JNull = Some data) /\
      (py_get data "mimeType" (JStr "") = Some (JStr m) \/
       py_get data "mime_type" (JStr "") = Some (JStr m)) /\
      String.prefix "image" m = true /\
      get_item data "data" = Some (JStr s) /\ b64decode s = Some image.
Proof.
  unfold request_gemini_image.
  destruct (g_credentials env); [|discriminate].
  destruct (g_refresh_ok env); [|discriminate].
  destruct (g_token env) as [token|]; [|discriminate].
  destruct (String.eqb token ""); [discriminate|]. cbn [negb].
  destruct (g_post env _) as [response|] eqn:Hp; [|discriminate].
  destruct (Z.eqb_spec (status_code response) 200) as [Hs|Hs]; cbn [negb].
  2:{ destruct (Z.eqb _ 400); [discriminate|].
      destruct (Z.eqb _ 401); [discriminate|].
      destruct (Z.eqb _ 403); discriminate. }
  destruct (response_json response) as [result|] eqn:Hj; [|discriminate].
  destruct (find_image b64decode result) as [b| |] eqn:Hf; try discriminate.
  intros H. injection H as <-.
  unfold find_image in Hf.
  destruct (py_get result "candidates" (JList [])) as [cands_v|] eqn:Hcv; [|discriminate].
  destruct (py_iter cands_v) as [cands|] eqn:Hcs; [|discriminate].
  destruct (scan_list_found _ _ _ Hf) as (candidate & Hin & Hc).
  exists response, result, cands_v, cands, candidate.
  do 6 (split; [first [assumption|reflexivity]|]).
  unfold scan_candidate in Hc.
  destruct (py_get candidate "content" (JDict [])) as [ct|] eqn:Hct; [|discriminate].
  destruct (py_get ct "parts" (JList [])) as [parts_v|] eqn:Hpv; [|discriminate].
  destruct (py_iter parts_v) as [parts|] eqn:Hps; [|discriminate].
  destruct (scan_list_found _ _ _ Hc) as (part & Hinp & Hpart).
  destruct (scan_part_found _ _ _ Hpart) as (data & m & s & Hd & Hm & Hpre & Hs' & Hb).
  exists ct, parts_v, parts, part, data, m, s. tauto.
Qed.

(** A loop skips the elements that find nothing. *)
Lemma scan_list_skip (f : json -> scan) (pre post : list json) :
  Forall (fun x => f x = NotFound) pre ->
  scan_list f (pre ++ post)%list = scan_list f post.
Proof. induction 1 as [|x pre Hx _ IH]; simpl; [reflexivity|]. rewrite Hx. exact IH. Qed.

Lemma gemini_image_from_image_part_witness :
  request_gemini_image
    (mkGeminiEnv true true (Some "tok")
       (fun _ => Some (mkGeminiResponse 200 ""
          (Some (JDict [("candidates", JList [JDict [("content", JDict [("parts", JList [
             JDict [("text", JStr "Here is the image")];
             JDict [("inlineData", JDict [("mimeType", JStr "image/png");
                                          ("data", JStr "AAE=")])]])])]])])))))
    (fun _ => "") (fun _ => Some [Byte.x00; Byte.x01]) "p" 7 None None None
  = ImageOk [Byte.x00; Byte.x01] /\
  exists response,
    g_post
      (mkGeminiEnv true true (Some "tok")
         (fun _ => Some (mkGeminiResponse 200 ""
            (Some (JDict [("candidates", JList [JDict [("content", JDict [("parts", JList [
               JDict [("text", JStr "Here is the image")];
               JDict [("inlineData", JDict [("mimeType", JStr "image/png");
                                            ("data", JStr "AAE=")])]])])]])])))))
      (request_body (fun _ => "") "p" 7 None None None) = Some response /\
    status_code response = 200%Z.
Proof.
  match goal with |- ?H /\ _ => assert (Hok : H) by reflexivity end.
  split; [exact Hok|].
  destruct (gemini_image_from_image_part _ _ _ _ _ _ _ _ _ Hok)
    as (response & _ & _ & _ & _ & Hp & Hs & _).
  exists response. split; [exact Hp|exact Hs].
Defined.

(** X14: Gemini's usual answer is decoded: when the first candidate's
    parts are parts without inline data (text parts) followed by a part
    whose [inlineData] has a [mimeType] starting with ["image"] and a
    decodable [data] string, the function returns the decoded bytes,
    whatever follows that part and whatever the other candidates are. *)
Theorem gemini_first_image_part (env : gemini_env) (b64encode : bytes -> string)
    (b64decode : string -> option bytes) (prompt : string) (seed : Z)
    (base_image : option bytes) (negative_prompt : option string)
    (response_modalities : option (list string)) (token : string)
    (response : gemini_response) (rkv ckv ctkv pkv dkv : list (string * json))
    (cands pre post : list json) (m s : string) (image : bytes) :
  g_credentials env = true -> g_refresh_ok env = true ->
  g_token env = Some token -> token <> "" ->
  g_post env (request_body b64encode prompt seed base_image negative_prompt
                response_modalities) = Some response ->
  status_code response = 200%Z ->
  response_json response = Some (JDict rkv) ->
  dict_lookup rkv "candidates" = Some (JList (JDict ckv :: cands)) ->
  dict_lookup ckv "content" = Some (JDict ctkv) ->
  dict_lookup ctkv "parts" = Some (JList (pre ++ JDict pkv :: post)%list) ->
  Forall (fun q => exists qkv, q = JDict qkv /\ dict_lookup qkv "inlineData" = None /\
                               dict_lookup qkv "inline_data" = None) pre ->
  dict_lookup pkv "inlineData" = Some (JDict dkv) ->
  dict_lookup dkv "mimeType" = Some (JStr m) -> String.prefix "image" m = true ->
  dict_lookup dkv "data" = Some (JStr s) -> b64decode s = Some image ->
  request_gemini_image env b64encode b64decode prompt seed base_image negative_prompt
    response_modalities = ImageOk image.
Proof.
  intros Hc Hr Ht Hne Hp Hs Hj Hcands Hct Hparts Hpre Hd Hm Hpfx Hdata Hb.
  unfold request_gemini_image.
  rewrite Hc, Hr, Ht. apply String.eqb_neq in Hne. rewrite Hne, Hp. cbn [negb].
  rewrite Hs. cbn [Z.eqb negb Pos.eqb]. rewrite Hj.
  unfold find_image. simpl. rewrite Hcands. simpl.
  unfold scan_candidate. simpl. rewrite Hct. simpl. rewrite Hparts. simpl.
  rewrite scan_list_skip.
  2:{ eapply Forall_impl; [exact Hpre|].
      intros q (qkv & -> & H1 & H2). unfold scan_part. simpl.
      rewrite H1. simpl. rewrite H2. reflexivity. }
  simpl. unfold scan_part. simpl. rewrite Hd.
  assert (Hdkv : dkv <> []) by (intros ->; discriminate).
  do 2 (simpl; case_bool_decide; [contradiction|]).
  simpl. rewrite Hm. simpl. rewrite Hpfx. unfold decode_data. simpl.
  rewrite Hdata, Hb. reflexivity.
Qed.

Lemma gemini_first_image_part_witness :
  request_gemini_image
    (mkGeminiEnv true true (Some "tok")
       (fun _ => Some (mkGeminiResponse 200 ""
          (Some (JDict [("candidates", JList [JDict [("content", JDict [("parts", JList [
             JDict [("text", JStr "Here is the image")];
             JDict [("inlineData", JDict [("mimeType", JStr "image/png");
                                          ("data", JStr "AAE=")])]])])]])])))))
    (fun _ => "") (fun _ => Some [Byte.x00; Byte.x01]) "p" 7 None (Some "blurry") None
  = ImageOk [Byte.x00; Byte.x01].
Proof.
  eapply (gemini_first_image_part _ _ _ "p" 7 None (Some "blurry") None "tok"
            (mkGeminiResponse 200 ""
               (Some (JDict [("candidates", JList [JDict [("content", JDict [("parts", JList [
                  JDict [("text", JStr "Here is the image")];
                  JDict [("inlineData", JDict [("mimeType", JStr "image/png");
                                               ("data", JStr "AAE=")])]])])]])])))
            _ _ _ _ _ [] [JDict [("text", JStr "Here is the image")]] [] "image/png" "AAE=");
    try reflexivity.
  - discriminate.
  - repeat constructor. eexists. split; [reflexivity|split; reflexivity].
Defined.

End GeminiImageProofs.

(* ================================================================== *)
(** ** Proofs: generation endpoints *)

Module GenerateEndpointProofs.
Import Json GenerateEndpoint.
Local Open Scope nat_scope.

(** The leading digit of a positive number is not ['0']. *)
Lemma pretty_N_go_lead (x : N) (s : string) :
  (0 < x)%N -> exists c r, pretty_N_go x s = String.String c r /\ c <> pretty_N_char 0.
Proof.
  revert s. induction (N.lt_wf_0 x) as [x _ IH]; intros s Hx.
  rewrite pretty_N_go_step by exact Hx.
  destruct (decide (N.div x 10 = 0)%N) as [E|E].
  - rewrite E, pretty_N_go_0. eexists _, _. split; [reflexivity|].
    intros Hc.
    apply pretty_N_char_inj in Hc; [|apply N.mod_lt; lia|lia].
    pose proof (N.div_mod x 10). lia.
  - apply IH; [apply N.div_lt; [exact Hx|reflexivity]|apply N.neq_0_lt_0; exact E].
Qed.

Lemma pretty_nat_lead (n : nat) :
  0 < n -> exists c r, pretty n = String.String c r /\ c <> pretty_N_char 0.
Proof.
  intros Hn. unfold pretty, pretty_nat, pretty, pretty_N.
  rewrite decide_False by lia. apply pretty_N_go_lead. lia.
Qed.

Lemma pad2_inj (i j : nat) : pad2 i = pad2 j -> i = j.
Proof.
  unfold pad2.
  destruct (Nat.ltb_spec i 10) as [Hi10|Hi10], (Nat.ltb_spec j 10) as [Hj10|Hj10]; intros H.
  - simpl in H. injection H as H0. apply pretty_nat_inj in H0. exact H0.
  - destruct (pretty_nat_lead j) as (c & r & Hj & Hc); [lia|].
    rewrite Hj in H. simpl in H. injection H as Hc' _. exfalso. apply Hc. rewrite <- Hc'. reflexivity.
  - destruct (pretty_nat_lead i) as (c & r & Hi & Hc); [lia|].
    rewrite Hi in H. simpl in H. injection H as Hc' _. exfalso. apply Hc. rewrite Hc'. reflexivity.
  - apply pretty_nat_inj in H. exact H.
Qed.

Lemma list_ascii_of_string_append (s t : string) :
  String.list_ascii_of_string (s ++ t) =
  (String.list_ascii_of_string s ++ String.list_ascii_of_string t)%list.
Proof. induction s as [|c s IH]; simpl; [reflexivity|]. rewrite IH. reflexivity. Qed.

Lemma append_cancel_r (s1 s2 t : string) : (s1 ++ t = s2 ++ t)%string -> s1 = s2.
Proof.
  intros H. apply (f_equal String.list_ascii_of_string) in H.
  rewrite !list_ascii_of_string_append in H. apply app_inv_tail in H.
  rewrite <- (String.string_of_list_ascii_of_string s1),
          <- (String.string_of_list_ascii_of_string s2), H.
  reflexivity.
Qed.

Lemma zip_entries_lookup (id : string) (imgs : list bytes) (i : nat) :
  zip_entries id imgs !! i =
  (fun b => ((id ++ "_expr" ++ pad2 (S i) ++ ".png")%string, b)) <$> imgs !! i.
Proof. unfold zip_entries. rewrite list_lookup_imap. reflexivity. Qed.

(** X18: the ZIP archive holds one entry per processed image, in order:
    the [i]-th image (from 0) is stored under
    [{character_id}_expr{i+1:02d}.png]; no two entries share a name. *)
Theorem zip_entries_named (id : string) (processed_images : list bytes) :
  map snd (zip_entries id processed_images) = processed_images /\
  (forall i b, processed_images !! i = Some b ->
     zip_entries id processed_images !! i =
       Some ((id ++ "_expr" ++ pad2 (S i) ++ ".png")%string, b)) /\
  NoDup (map fst (zip_entries id processed_images)).
Proof.
  split; [|split].
  - apply list_eq. intros i. rewrite list_lookup_fmap, zip_entries_lookup.
    destruct (processed_images !! i); reflexivity.
  - intros i b Hb. rewrite zip_entries_lookup, Hb. reflexivity.
  - apply NoDup_alt. intros i j n Hi Hj.
    rewrite list_lookup_fmap, zip_entries_lookup in Hi, Hj.
    destruct (processed_images !! i), (processed_images !! j); try discriminate.
    simpl in Hi, Hj. injection Hi as <-. injection Hj as Hj.
    apply (inj (String.append id)), (inj (String.append "_expr")),
      append_cancel_r, pad2_inj in Hj.
    congruence.
Qed.

(** X15: a [mode] other than ["emo"] and ["fantasy"] (an unknown or
    misspelt one included) is the normal mode: the endpoint answers as for
    ["normal"], so without [character] it answers 422, even when an
    [emo_character] or [fantasy_character] is given. *)
Theorem generate_simple_other_mode_is_normal (env : generate_env)
    (request : simple_generate_request) :
  mode request <> "emo" -> mode request <> "fantasy" ->
  generate_images_simple env request =
  generate_images_simple env
    (mkSimpleGenerateRequest (character_field request) (return_type request) "normal"
       (emo_character_field request) (fantasy_character_field request)) /\
  (credentials env = true -> character_field request = None ->
   generate_images_simple env request = GenerateError 422).
Proof.
  intros He Hf. unfold generate_images_simple. simpl.
  apply String.eqb_neq in He, Hf. rewrite He, Hf.
  split; [reflexivity|]. intros Hc Hn. rewrite Hc, Hn. reflexivity.
Qed.

Lemma generate_simple_other_mode_is_normal_witness :
  let env := mkGenerateEnv true (fun _ => None) (fun _ => None) (fun _ => Some [])
               (fun _ => Some []) (fun _ => None) (fun _ => "") in
  let request := mkSimpleGenerateRequest None "base64_list" "Emo"
                   (Some (mkEmoCharacter "emo_001" 123456789 "small" "h" "e" "o")) None in
  generate_images_simple env request =
  generate_images_simple env
    (mkSimpleGenerateRequest None "base64_list" "normal"
       (Some (mkEmoCharacter "emo_001" 123456789 "small" "h" "e" "o")) None) /\
  (credentials env = true -> character_field request = None ->
   generate_images_simple env request = GenerateError 422).
Proof.
  intros env request.
  apply (generate_simple_other_mode_is_normal env request); discriminate.
Defined.

(** X16: with the [base64_list] return type the JSON lists one base64
    string per generated image, in generation order, and counts them in
    its message; the normal mode (and [/api/generate]) replaces each
    image by its green-screen removal, keeping the original when the
    removal raises, while the emo and fantasy modes return the images as
    generated. *)
Theorem generate_base64_images (env : generate_env) (request : simple_generate_request)
    (images : list bytes) :
  credentials env = true -> return_type request = "base64_list" ->
  let message n := ("Successfully generated " ++ pretty n ++ " images")%string in
  (forall c, mode request <> "emo" -> mode request <> "fantasy" ->
     character_field request = Some c ->
     generate_images_with_vertex_simple env c = Some images ->
     generate_images_simple env request =
       ImagesJson (map (fun img => b64encode env
                          (match remove_green_background env img with
                           | Some processed => processed | None => img end)) images)
                  (message (length images))) /\
  (forall e, mode request = "emo" -> emo_character_field request = Some e ->
     generate_emo_with_vertex env e = Some images ->
     generate_images_simple env request =
       ImagesJson (map (b64encode env) images) (message (length images))) /\
  (forall f, mode request = "fantasy" -> fantasy_character_field request = Some f ->
     generate_fantasy_with_vertex env f = Some images ->
     generate_images_simple env request =
       ImagesJson (map (b64encode env) images) (message (length images))) /\
  (forall c, generate_images_with_vertex env c = Some images ->
     generate_images env (mkGenerateRequest c "base64_list") =
       ImagesJson (map (fun img => b64encode env
                          (match remove_green_background env img with
                           | Some processed => processed | None => img end)) images)
                  (message (length images))).
Proof.
  intros Hc Hr message. unfold generate_images_simple, generate_images, respond.
  rewrite Hc, Hr. simpl. split; [|split; [|split]].
  - intros c He Hf Hch Hg. apply String.eqb_neq in He, Hf. rewrite He, Hf, Hch, Hg.
    unfold remove_green_backgrounds. rewrite map_map, !length_map. reflexivity.
  - intros e Hm He Hg. rewrite Hm. simpl. rewrite He, Hg. rewrite length_map. reflexivity.
  - intros f Hm Hf Hg. rewrite Hm. simpl. rewrite Hf, Hg. rewrite length_map. reflexivity.
  - intros c Hg. rewrite Hg. simpl.
    unfold remove_green_backgrounds. rewrite map_map, !length_map. reflexivity.
Qed.

Lemma generate_base64_images_witness :
  let env := mkGenerateEnv true (fun _ => Some [[Byte.x01]; [Byte.x02]])
               (fun _ => None) (fun _ => None) (fun _ => None)
               (fun img => match img with [Byte.x01] => Some [Byte.x03] | _ => None end)
               (fun img => match img with [Byte.x03] => "Aw==" | _ => "Ag==" end) in
  generate_images_simple env
    (mkSimpleGenerateRequest
       (Some (mkSimpleCharacter "char_001" 123456789 "16" "slim" "brown" "black" "uniform"
                (Some "") (Some "")))
       "base64_list" "normal" None None) =
  ImagesJson ["Aw=="; "Ag=="] "Successfully generated 2 images".
Proof.
  intros env.
  apply (proj1 (generate_base64_images env
           (mkSimpleGenerateRequest
              (Some (mkSimpleCharacter "char_001" 123456789 "16" "slim" "brown" "black"
                       "uniform" (Some "") (Some "")))
              "base64_list" "normal" None None)
           [[Byte.x01]; [Byte.x02]] eq_refl eq_refl)
           (mkSimpleCharacter "char_001" 123456789 "16" "slim" "brown" "black"
              "uniform" (Some "") (Some "")));
    [discriminate|discriminate|reflexivity|reflexivity].
Defined.

(** X17: the ZIP return type reads [request.character.character_id]: in
    the emo and fantasy modes without a [character], the images are
    generated and then the endpoint answers 500. *)
Theorem generate_zip_needs_character (env : generate_env)
    (request : simple_generate_request) (images : list bytes) :
  credentials env = true -> return_type request <> "base64_list" ->
  character_field request = None ->
  ((exists e, mode request = "emo" /\ emo_character_field request = Some e /\
              generate_emo_with_vertex env e = Some images) \/
   (exists f, mode request = "fantasy" /\ fantasy_character_field request = Some f /\
              generate_fantasy_with_vertex env f = Some images)) ->
  generate_images_simple env request = GenerateError 500.
Proof.
  intros Hc Hr Hn Hm. unfold generate_images_simple, respond.
  rewrite Hc, Hn. apply String.eqb_neq in Hr. simpl. rewrite Hr.
  destruct Hm as [(e & Hm & He & Hg)|(f & Hm & Hf & Hg)]; rewrite Hm; simpl.
  - rewrite He, Hg. reflexivity.
  - rewrite Hf, Hg. reflexivity.
Qed.

Lemma generate_zip_needs_character_witness :
  let e := mkEmoCharacter "emo_001" 123456789 "small" "h" "e" "o" in
  let env := mkGenerateEnv true (fun _ => None) (fun _ => None)
               (fun _ => Some [[Byte.x01]; [Byte.x02]; [Byte.x03]; [Byte.x04]])
               (fun _ => None) (fun _ => None) (fun _ => "") in
  generate_images_simple env (mkSimpleGenerateRequest None "zip" "emo" (Some e) None) =
  GenerateError 500.
Proof.
  intros e env.
  apply (generate_zip_needs_character env _ [[Byte.x01]; [Byte.x02]; [Byte.x03]; [Byte.x04]]);
    [reflexivity|discriminate|reflexivity|left; exists e; repeat split].
Defined.

End GenerateEndpointProofs.

(* ================================================================== *)
(** ** Proofs: [generate_images_with_vertex] and the endpoints that call it *)

Module VertexProofs.
Import Json GenerateEndpoint.
Local Open Scope nat_scope.

(** X19: [create_base_prompt_without_expression] reads attributes such as
    [character.basic.age_appearance] of the [Dict[str, Any]] fields of a
    [Character], which raises [AttributeError]; so
    [generate_images_with_vertex] never returns images, and [/api/generate]
    answers 500 to every request, whatever the credentials, the generation
    service and the green-screen removal. *)
Theorem api_generate_always_500 (credentials refresh_ok : bool) (py_format : json -> string)
    (call : Batch.service) (completion_order : list nat)
    (gen_simple : simple_character -> option (list bytes))
    (gen_emo : emo_character -> option (list bytes))
    (gen_fantasy : fantasy_character -> option (list bytes))
    (remove : bytes -> option bytes) (encode : bytes -> string)
    (request : generate_request) :
  Vertex.create_base_prompt_without_expression py_format (g_character request) = None /\
  Vertex.generate_images_with_vertex credentials refresh_ok py_format call completion_order
    (g_character request) = None /\
  generate_images
    (mkGenerateEnv credentials gen_simple
       (Vertex.generate_images_with_vertex credentials refresh_ok py_format call
          completion_order)
       gen_emo gen_fantasy remove encode) request = GenerateError 500.
Proof.
  assert (Hp : Vertex.create_base_prompt_without_expression py_format (g_character request)
               = None) by reflexivity.
  assert (Hv : Vertex.generate_images_with_vertex credentials refresh_ok py_format call
                 completion_order (g_character request) = None).
  { unfold Vertex.generate_images_with_vertex. rewrite Hp.
    destruct credentials, refresh_ok; reflexivity. }
  split; [exact Hp|split; [exact Hv|]].
  unfold generate_images. simpl. rewrite Hv. destruct credentials; reflexivity.
Qed.

(** X20: in the normal mode of [/api/generate/simple] with the
    [base64_list] return type, when the text-to-image call gives the first
    image and each of the other three expressions gets an image (from its
    edit or its fallback), the endpoint answers exactly four images, whatever
    the order the three calls finish in: the first one, then the three
    expressions in their listed order, each after green-screen removal (or
    as generated when the removal raises), with the message
    ["Successfully generated 4 images"]. *)
Theorem simple_normal_mode_four_images (call : Batch.service) (completion_order : list nat)
    (gen_vertex : character -> option (list bytes))
    (gen_emo : emo_character -> option (list bytes))
    (gen_fantasy : fantasy_character -> option (list bytes))
    (remove : bytes -> option bytes) (encode : bytes -> string)
    (request : simple_generate_request) (c : simple_character)
    (first : bytes) (others : list bytes) :
  mode request <> "emo" -> mode request <> "fantasy" ->
  return_type request = "base64_list" ->
  character_field request = Some c ->
  completion_order ≡ₚ [1; 2; 3] ->
  call (Batch.text_request (Vertex.create_simple_prompt_without_expression c) (sc_seed c)
          (snd (hd ("", "") Vertex.expressions))) = Some first ->
  Forall2 (fun exp img =>
    snd (Batch.generate_expression call (Vertex.create_simple_prompt_without_expression c)
           (sc_seed c) first exp) = Some img) (tl Vertex.expressions) others ->
  generate_images_simple
    (mkGenerateEnv true (Vertex.generate_images_with_vertex_simple true true call completion_order)
       gen_vertex gen_emo gen_fantasy remove encode) request =
  ImagesJson (map (fun img => encode (match remove img with
                                      | Some processed => processed
                                      | None => img end)) (first :: others))
             "Successfully generated 4 images".
Proof.
  intros He Hf Hr Hc Hord Hfirst Hothers.
  pose proof (Forall2_length _ _ _ Hothers) as Hlen. simpl in Hlen.
  assert (Hgen : Vertex.generate_images_with_vertex_simple true true call completion_order c
                 = Some (first :: others)).
  { unfold Vertex.generate_images_with_vertex_simple. cbn [negb].
    exact (BatchProofs.generate_images_outcomes call _ (sc_seed c)
             (hd ("", "") Vertex.expressions) (tl Vertex.expressions)
             completion_order first others Hord Hfirst Hothers). }
  unfold generate_images_simple, respond. simpl.
  apply String.eqb_neq in He, Hf. rewrite He, Hf, Hc. simpl. rewrite Hgen, Hr. simpl.
  unfold remove_green_backgrounds. rewrite map_map, !length_map. simpl length.
  assert (Hl : length others = 3%nat) by exact (eq_sym Hlen). rewrite Hl. reflexivity.
Qed.

Lemma simple_normal_mode_four_images_witness :
  generate_images_simple
    (mkGenerateEnv true
       (Vertex.generate_images_with_vertex_simple true true
          (fun r => Some (match Batch.req_base_image r with
                          | None => [Byte.x00] | Some _ => [Byte.x01] end))
          [3%nat; 1%nat; 2%nat])
       (fun _ => None) (fun _ => None) (fun _ => None)
       (fun img => Some (Byte.x02 :: img)) (fun _ => "img"))
    (mkSimpleGenerateRequest
       (Some (mkSimpleCharacter "c1" 7%Z "20" "slim" "blue" "black" "coat" None None))
       "base64_list" "normal" None None) =
  ImagesJson ["img"; "img"; "img"; "img"] "Successfully generated 4 images".
Proof.
  apply (simple_normal_mode_four_images
           (fun r => Some (match Batch.req_base_image r with
                           | None => [Byte.x00] | Some _ => [Byte.x01] end))
           [3%nat; 1%nat; 2%nat] (fun _ => None) (fun _ => None) (fun _ => None)
           (fun img => Some (Byte.x02 :: img)) (fun _ => "img")
           (mkSimpleGenerateRequest
              (Some (mkSimpleCharacter "c1" 7%Z "20" "slim" "blue" "black" "coat" None None))
              "base64_list" "normal" None None)
           (mkSimpleCharacter "c1" 7%Z "20" "slim" "blue" "black" "coat" None None)
           [Byte.x00] [[Byte.x01]; [Byte.x01]; [Byte.x01]]).
  - discriminate.
  - discriminate.
  - reflexivity.
  - reflexivity.
  - apply (Permutation_trans (l' := [1%nat; 3%nat; 2%nat])); [apply Permutation_swap|].
    apply Permutation_skip, Permutation_swap.
  - reflexivity.
  - repeat constructor.
Defined.

End VertexProofs.
